(** * Student-records API: auth workflow, role guard, transactional update

    A shallow embedding of the NestJS/TypeORM services of the repository
    (AuthService, JwtStrategy, UserRoleGuard, the Student and User entity
    hooks, StudentsService, SeedService, SeedController) together with a
    small executable model of the collaborators they call (the Postgres
    tables behind TypeORM, the query runner, the logger), followed by the
    properties of the specification stated against that embedding.

    Conventions.
    - A JavaScript string is a [string]; the case and whitespace functions
      act on the ASCII range and leave every other character unchanged.
      They are the functions of JavaScript (and [UPPER] of Postgres) on
      ASCII strings only; a general statement that depends on them says
      that the strings concerned are ASCII ([is_ascii]).
    - A uuid is held in the text Postgres prints for it (lower case,
      hyphenated) and compared as text; a general statement about a lookup
      by id says that the id asked for is written that way.
    - An [async] method is a computation in the monad [M]: it threads the
      state of the outside world, ends in a value or in a thrown exception,
      and records the persistence calls it made.  Awaited calls run in
      program order.
    - A property that JavaScript may leave [undefined] is an [option].
*)

From Stdlib Require Import String Ascii List ZArith Bool Arith Lia DecimalString.
From Stdlib Require Import Permutation.
Import ListNotations.

Open Scope list_scope.
Open Scope string_scope.

(* ================================================================== *)
(** ** JavaScript string primitives used by the entity hooks *)

Module Js.

Definition is_upper (c : ascii) : bool :=
  let n := nat_of_ascii c in (65 <=? n)%nat && (n <=? 90)%nat.

Definition is_lower (c : ascii) : bool :=
  let n := nat_of_ascii c in (97 <=? n)%nat && (n <=? 122)%nat.

Definition lower_char (c : ascii) : ascii :=
  if is_upper c then ascii_of_nat (nat_of_ascii c + 32) else c.

Definition upper_char (c : ascii) : ascii :=
  if is_lower c then ascii_of_nat (nat_of_ascii c - 32) else c.

Fixpoint map_chars (f : ascii -> ascii) (s : string) : string :=
  match s with
  | EmptyString => EmptyString
  | String c r => String (f c) (map_chars f r)
  end.

(** [String.prototype.toLowerCase] / [toUpperCase] on ASCII strings:
    the letters A-Z and a-z are mapped, every other character is left as
    it is.  (JavaScript also maps the letters outside ASCII.) *)
Definition toLowerCase (s : string) : string := map_chars lower_char s.
Definition toUpperCase (s : string) : string := map_chars upper_char s.

(** [String.prototype.replace] with a string pattern: only the FIRST
    occurrence of the pattern is replaced. *)
Fixpoint replace (pattern replacement s : string) : string :=
  if prefix pattern s
  then replacement ++ substring (String.length pattern) (String.length s - String.length pattern) s
  else match s with
       | EmptyString => EmptyString
       | String c r => String c (replace pattern replacement r)
       end.

Definition is_space (c : ascii) : bool :=
  match nat_of_ascii c with
  | 9 | 10 | 11 | 12 | 13 | 32 => true
  | _ => false
  end.

Fixpoint trimStart (s : string) : string :=
  match s with
  | EmptyString => EmptyString
  | String c r => if is_space c then trimStart r else s
  end.

Fixpoint trimEnd (s : string) : string :=
  match s with
  | EmptyString => EmptyString
  | String c r =>
      let r' := trimEnd r in
      if is_space c && (r' =? "") then EmptyString else String c r'
  end.

(** [String.prototype.trim] on ASCII strings: tab, line feed, vertical
    tab, form feed, carriage return and space are white space.
    (JavaScript also strips the white space outside ASCII.) *)
Definition trim (s : string) : string := trimEnd (trimStart s).

(** A property that may hold a value, [undefined] or [null]. *)
Inductive Optional (A : Type) : Type :=
| undefined : Optional A
| null : Optional A
| value (a : A) : Optional A.
Arguments undefined {A}.
Arguments null {A}.
Arguments value {A} a.

(** Number-to-string conversion of an integer (decimal digits). *)
Definition string_of_number (n : Z) : string :=
  NilZero.string_of_int (Z.to_int n).

(** The string that [s + x] appends for a numeric property [x]. *)
Definition to_string (x : Optional Z) : string :=
  match x with
  | undefined => "undefined"
  | null => "null"
  | value n => string_of_number n
  end.

(** Truthiness of a string-valued property: [undefined] and the empty
    string are falsy. *)
Definition truthy_string (s : option string) : bool :=
  match s with
  | None => false
  | Some s => negb (s =? "")
  end.

(** Truthiness of an array-valued property: every array is truthy, the
    empty one included; only [undefined] is falsy. *)
Definition truthy_array {A : Type} (l : option (list A)) : bool :=
  match l with
  | None => false
  | Some _ => true
  end.

End Js.

(* ================================================================== *)
(** ** Errors and thrown values *)

(** The error object of the Postgres driver, as TypeORM's QueryFailedError
    exposes it: the SQLSTATE [code] and the server's [detail] line. *)
Record DriverError := {
  code : option string;
  detail : option string
}.

(** SQLSTATE 23505, unique_violation, with the detail line Postgres
    writes for it. *)
Definition unique_violation (column key : string) : DriverError :=
  {| code := Some "23505";
     detail := Some ("Key (" ++ column ++ ")=(" ++ key ++ ") already exists.") |}.

(** SQLSTATE 22P02, invalid text representation (a malformed uuid). *)
Definition invalid_uuid : DriverError :=
  {| code := Some "22P02"; detail := None |}.

(** SQLSTATE 23502, not_null_violation. *)
Definition not_null_violation : DriverError :=
  {| code := Some "23502"; detail := Some "Failing row contains (null)." |}.

(** What a [throw] can carry: the HTTP exceptions of NestJS that the
    services raise, a raw persistence error, a TypeORM transaction-state
    error, or a JavaScript TypeError. *)
Inductive Exception : Type :=
| NotFoundException (message : string)
| UnauthorizedException (message : string)
| ForbiddenException (message : string)
| InternalServerErrorException (message : option string)
| QueryFailedError (driverError : DriverError)
| TransactionNotStartedError
| TransactionAlreadyStartedError
| TypeError (message : string).

(** [error.code] and [error.detail] of a caught value; both are
    [undefined] on anything but a driver error. *)
Definition error_code (error : Exception) : option string :=
  match error with
  | QueryFailedError e => code e
  | _ => None
  end.

Definition error_detail (error : Exception) : option string :=
  match error with
  | QueryFailedError e => detail e
  | _ => None
  end.

(** The status NestJS answers with for a thrown value: that of the HTTP
    exception, and 500 for anything else. *)
Definition http_status (error : Exception) : nat :=
  match error with
  | NotFoundException _ => 404
  | UnauthorizedException _ => 401
  | ForbiddenException _ => 403
  | _ => 500
  end.

(** The message the response body carries. *)
Definition response_message (error : Exception) : string :=
  match error with
  | NotFoundException m | UnauthorizedException m | ForbiddenException m => m
  | InternalServerErrorException (Some m) => m
  | _ => "Internal Server Error"
  end.

Inductive Result (A : Type) : Type :=
| Ok (a : A)
| Throw (e : Exception).
Arguments Ok {A} a.
Arguments Throw {A} e.

(* ================================================================== *)
(** ** Entities and DTOs *)

Module GradeEntity.

(** grade.entity.ts.  The [grade] column is declared [text]; the value
    is only stored and handed back, so it is carried in its column
    form.  The back reference [student] lives in the row's foreign key
    (see [Orm.GradeRow]). *)
Record Grade := {
  id : option string;
  subject : string;
  grade : string
}.

Definition set_id (g : Grade) (i : string) : Grade :=
  {| id := Some i; subject := subject g; grade := grade g |}.

End GradeEntity.

Module StudentEntity.
Import Js.

(** student.entity.ts.  [age] is the [int] column: a JavaScript number
    holding an integer, or nothing. *)
Record Student := {
  id : option string;
  name : string;
  age : Optional Z;
  email : string;
  nickname : option string;
  gender : string;
  subjects : list string;
  grade : option (list GradeEntity.Grade)
}.

Definition set_nickname (this : Student) (n : option string) : Student :=
  {| id := id this; name := name this; age := age this; email := email this;
     nickname := n; gender := gender this; subjects := subjects this;
     grade := grade this |}.

Definition set_grade (this : Student) (g : option (list GradeEntity.Grade)) : Student :=
  {| id := id this; name := name this; age := age this; email := email this;
     nickname := nickname this; gender := gender this; subjects := subjects this;
     grade := g |}.

Definition set_id (this : Student) (i : string) : Student :=
  {| id := Some i; name := name this; age := age this; email := email this;
     nickname := nickname this; gender := gender this; subjects := subjects this;
     grade := grade this |}.

(** [@BeforeInsert() checkNicknameInsert]:
    [if(!this.nickname) this.nickname = this.name], then
    [this.nickname = this.nickname.toLowerCase().replace(" ", "_") + this.age]. *)
Definition checkNicknameInsert (this : Student) : Student :=
  let nickname :=
    match nickname this with
    | Some n => if truthy_string (Some n) then n else name this
    | None => name this
    end in
  set_nickname this
    (Some (replace " " "_" (toLowerCase nickname) ++ to_string (age this))).

(** [@BeforeUpdate() checkNicknameUpdate]:
    [this.nickname = this.nickname.toLowerCase().replace(" ", "_") + this.age].
    It starts from the current nickname, not from the name.  Reading
    [toLowerCase] off an undefined nickname is a TypeError. *)
Definition checkNicknameUpdate (this : Student) : Result Student :=
  match nickname this with
  | None => Throw (TypeError "Cannot read properties of undefined (reading 'toLowerCase')")
  | Some n =>
      Ok (set_nickname this
            (Some (replace " " "_" (toLowerCase n) ++ to_string (age this))))
  end.

End StudentEntity.

Module UserEntity.
Import Js.

(** user.entity.ts.  A loaded entity carries only the selected
    columns and a new one has no id yet, so the properties other than
    [email] (present in every entity the code builds or loads) may be
    undefined. *)
Record User := {
  id : option string;
  email : string;
  fullName : option string;
  password : option string;
  isActive : option bool;
  roles : option (list string)
}.

Definition set_email (this : User) (e : string) : User :=
  {| id := id this; email := e; fullName := fullName this;
     password := password this; isActive := isActive this; roles := roles this |}.

(** [delete user.password]. *)
Definition delete_password (this : User) : User :=
  {| id := id this; email := email this; fullName := fullName this;
     password := None; isActive := isActive this; roles := roles this |}.

(** [@BeforeInsert() @BeforeUpdate() checkFieldsBeforeChanges]:
    [this.email = this.email.toLowerCase().trim()], with the ASCII case
    and white space functions above. *)
Definition checkFieldsBeforeChanges (this : User) : User :=
  set_email this (trim (toLowerCase (email this))).

End UserEntity.

(** jwt.interface.ts: the payload signed into a token. *)
Module JwtInterface.
Record Jwt := { id : string; email : string }.
End JwtInterface.

Module CreateStudent.
(** create-student.dto.ts.  [grades] is typed [Grade[]], the entity
    class, and is validated only as an array: an element may carry an
    [id]. *)
Record CreateStudentDto := {
  name : string;
  age : option Z;
  email : string;
  gender : string;
  subjects : list string;
  grades : option (list GradeEntity.Grade)
}.
End CreateStudent.

Module UpdateStudent.
(** [UpdateStudentDto extends PartialType(CreateStudentDto)]: the same
    properties, each optional. *)
Record UpdateStudentDto := {
  name : option string;
  age : option Z;
  email : option string;
  gender : option string;
  subjects : option (list string);
  grades : option (list GradeEntity.Grade)
}.
End UpdateStudent.

Module CreateUser.
Record CreateUserDto := { email : string; fullName : string; password : string }.
End CreateUser.

Module Login.
Record LoginDto := { email : string; password : string }.
End Login.

(* ================================================================== *)
(** ** Library functions the services are injected with *)

(** The functions of the libraries the code calls, whose bodies are not
    part of the repository.  Randomness is made explicit: the bcrypt salt
    and the uuid default of a primary key are drawn from a counter of the
    outside world. *)
Class Externals := {
  (** class-validator's [isUUID].  The lookups by id below take an id
      for which it holds to be one Postgres reads as a uuid, and any other
      string to be refused by Postgres (error 22P02); Postgres itself also
      reads some strings that are not UUIDs for class-validator (an id
      without hyphens, for one), which the model does not follow. *)
  isUUID : string -> bool;
  (** [bcrypt.hashSync password rounds], with the salt's randomness. *)
  hashSync : string -> nat -> nat -> string;
  (** [bcrypt.compareSync plaintext hash]. *)
  compareSync : string -> string -> bool;
  (** [JwtService.sign payload] at a clock reading. *)
  sign : JwtInterface.Jwt -> Z -> string;
  (** Signature and expiry check of a bearer token at a clock reading. *)
  verify : string -> Z -> option JwtInterface.Jwt;
  (** The k-th draw of Postgres' uuid default. *)
  uuid_generate_v4 : nat -> string;
  (** [initialData.students] of seed-student.data.ts. *)
  initialData : list CreateStudent.CreateStudentDto
}.

(* ================================================================== *)
(** ** The tables behind TypeORM *)

(** A model of the persistence collaborator, TypeORM over Postgres, as
    far as the services use it.  What it takes from TypeORM and Postgres:
    - find methods and [preload] load an [eager] relation with the row;
    - [save] updates the row that has the entity's primary key and
      inserts when there is none; an explicit primary key is kept, a
      missing one is generated ([uuid_generate_v4]);
    - [@BeforeInsert] listeners run before an insert, [@BeforeUpdate]
      listeners before the update of an entity that differs from its row;
    - [cascade: true] saves the listed children with the parent, and a
      child that was related and is no longer listed loses its parent;
    - [onDelete: 'CASCADE'] deletes the children with the parent;
    - a unique index or primary key that would be violated makes the
      statement fail with SQLSTATE 23505 and write nothing. *)
Module Orm.
Import Js.

Record StudentRow := {
  s_id : string;
  s_name : string;
  s_age : option Z;
  s_email : string;
  s_nickname : string;
  s_gender : string;
  s_subjects : list string
}.

Record GradeRow := {
  g_id : string;
  g_subject : string;
  g_grade : string;
  g_studentId : option string
}.

Record UserRow := {
  u_id : string;
  u_email : string;
  u_fullName : string;
  u_password : string;
  u_isActive : bool;
  u_roles : list string
}.

Record Database := {
  students : list StudentRow;
  grades : list GradeRow;
  users : list UserRow
}.

Definition mem (key : string) (keys : list string) : bool :=
  existsb (String.eqb key) keys.

Definition owned_by (sid : string) (g : GradeRow) : bool :=
  match g_studentId g with
  | Some owner => owner =? sid
  | None => false
  end.

(** [SELECT * FROM grade WHERE studentId = sid]. *)
Definition grades_of (sid : string) (table : list GradeRow) : list GradeRow :=
  filter (owned_by sid) table.

(** [DELETE FROM grade WHERE studentId = sid]. *)
Definition delete_grades_of (sid : string) (table : list GradeRow) : list GradeRow :=
  filter (fun g => negb (owned_by sid g)) table.

Definition to_grade (g : GradeRow) : GradeEntity.Grade :=
  {| GradeEntity.id := Some (g_id g);
     GradeEntity.subject := g_subject g;
     GradeEntity.grade := g_grade g |}.

Definition age_of_column (a : option Z) : Optional Z :=
  match a with
  | Some n => value n
  | None => null
  end.

(** A property left [undefined] is not written: the column keeps its
    old content ([None], the NULL default, on insert). *)
Definition age_to_column (a : Optional Z) (old : option Z) : option Z :=
  match a with
  | value n => Some n
  | null => None
  | undefined => old
  end.

(** A student row as a find method returns it; the relation [grade] is
    [eager], so the owned grades come with it. *)
Definition to_student (db : Database) (r : StudentRow) : StudentEntity.Student :=
  {| StudentEntity.id := Some (s_id r);
     StudentEntity.name := s_name r;
     StudentEntity.age := age_of_column (s_age r);
     StudentEntity.email := s_email r;
     StudentEntity.nickname := Some (s_nickname r);
     StudentEntity.gender := s_gender r;
     StudentEntity.subjects := s_subjects r;
     StudentEntity.grade := Some (map to_grade (grades_of (s_id r) (grades db))) |}.

(** The row with the given id.  Ids are compared as text: the table holds
    them in the text Postgres prints, so this is the comparison of uuid
    values for an id asked for in that spelling (and not for, say, its
    upper-case spelling, which Postgres reads as the same uuid). *)
Definition find_student (id : string) (db : Database) : option StudentRow :=
  find (fun r => s_id r =? id) (students db).

(** The one-to-many side of a save.  A grade the entity no longer lists
    loses its owner (TypeORM's default action on an orphaned row). *)
Definition nullify_orphans (sid : string) (gs : list GradeEntity.Grade)
    (table : list GradeRow) : list GradeRow :=
  map (fun r =>
         if owned_by sid r
            && negb (existsb (fun g => match GradeEntity.id g with
                                       | Some i => i =? g_id r
                                       | None => false
                                       end) gs)
         then {| g_id := g_id r; g_subject := g_subject r;
                 g_grade := g_grade r; g_studentId := None |}
         else r) table.

(** Cascade of a save to the listed grades, in order: a grade without
    an id is inserted under the next generated uuid; a grade with an id
    is updated in place when a row has that id and inserted under that
    id otherwise.  A generated id that meets an existing row violates
    the primary key. *)
Fixpoint cascade_grades (uuid : nat -> string) (sid : string)
    (gs : list GradeEntity.Grade) (table : list GradeRow) (n : nat)
  : DriverError + (list GradeEntity.Grade * list GradeRow * nat) :=
  match gs with
  | [] => inr ([], table, n)
  | g :: rest =>
      let '(gid, n1, generated) :=
        match GradeEntity.id g with
        | Some i => (i, n, false)
        | None => (uuid n, S n, true)
        end in
      let row := {| g_id := gid; g_subject := GradeEntity.subject g;
                    g_grade := GradeEntity.grade g; g_studentId := Some sid |} in
      let present := mem gid (map g_id table) in
      if present && generated then inl (unique_violation "id" gid)
      else
        let table1 :=
          if present
          then map (fun r => if g_id r =? gid then row else r) table
          else (table ++ [row])%list in
        match cascade_grades uuid sid rest table1 n1 with
        | inl e => inl e
        | inr (gs', table', n') => inr (GradeEntity.set_id g gid :: gs', table', n')
        end
  end.

Definition list_eqb (a b : list string) : bool :=
  if list_eq_dec string_dec a b then true else false.

Definition option_Z_eqb (a b : option Z) : bool :=
  match a, b with
  | Some x, Some y => (x =? y)%Z
  | None, None => true
  | _, _ => false
  end.

(** Does the entity differ from its row in some column?  TypeORM calls
    the update listeners of an entity only then. *)
Definition columns_differ (e : StudentEntity.Student) (r : StudentRow) : bool :=
  negb ((StudentEntity.name e =? s_name r)
        && option_Z_eqb (age_to_column (StudentEntity.age e) (s_age r)) (s_age r)
        && (StudentEntity.email e =? s_email r)
        && match StudentEntity.nickname e with
           | Some n => n =? s_nickname r
           | None => true
           end
        && (StudentEntity.gender e =? s_gender r)
        && list_eqb (StudentEntity.subjects e) (s_subjects r)).

Definition email_taken (email : string) (except : option string)
    (table : list StudentRow) : bool :=
  existsb (fun r => (s_email r =? email)
                    && match except with
                       | Some i => negb (s_id r =? i)
                       | None => true
                       end) table.

Definition save_grades (uuid : nat -> string) (sid : string)
    (e : StudentEntity.Student) (db : Database) (students' : list StudentRow)
    (n : nat) (insert : bool)
  : Result (StudentEntity.Student * Database * nat) :=
  match StudentEntity.grade e with
  | None =>
      Ok (e, {| students := students'; grades := grades db; users := users db |}, n)
  | Some gs =>
      let table0 := if insert then grades db else nullify_orphans sid gs (grades db) in
      match cascade_grades uuid sid gs table0 n with
      | inl err => Throw (QueryFailedError err)
      | inr (gs', table', n') =>
          Ok (StudentEntity.set_grade e (Some gs'),
              {| students := students'; grades := table'; users := users db |}, n')
      end
  end.

(** [save(student)] against one state of the tables: an UPDATE when a
    row has the entity's id, an INSERT otherwise; the listeners run
    first; the unique index on [email] and the primary key are checked;
    then the save cascades to [grade].  It yields the entity as the
    save leaves it, the new tables and the advanced uuid counter, or the
    error, in which case nothing is written. *)
Definition save_student (uuid : nat -> string) (e : StudentEntity.Student)
    (db : Database) (n : nat)
  : Result (StudentEntity.Student * Database * nat) :=
  match match StudentEntity.id e with
        | Some i => find_student i db
        | None => None
        end with
  | Some row =>
      match (if columns_differ e row
             then StudentEntity.checkNicknameUpdate e else Ok e) with
      | Throw x => Throw x
      | Ok e1 =>
          if email_taken (StudentEntity.email e1) (Some (s_id row)) (students db)
          then Throw (QueryFailedError
                        (unique_violation "email" (StudentEntity.email e1)))
          else
            let row' := {| s_id := s_id row;
                           s_name := StudentEntity.name e1;
                           s_age := age_to_column (StudentEntity.age e1) (s_age row);
                           s_email := StudentEntity.email e1;
                           s_nickname := match StudentEntity.nickname e1 with
                                         | Some nick => nick
                                         | None => s_nickname row
                                         end;
                           s_gender := StudentEntity.gender e1;
                           s_subjects := StudentEntity.subjects e1 |} in
            save_grades uuid (s_id row) e1 db
              (map (fun r => if s_id r =? s_id row then row' else r) (students db))
              n false
      end
  | None =>
      let e1 := StudentEntity.checkNicknameInsert e in
      let '(sid, n1) :=
        match StudentEntity.id e1 with
        | Some i => (i, n)
        | None => (uuid n, S n)
        end in
      match StudentEntity.nickname e1 with
      | None => Throw (QueryFailedError not_null_violation)
      | Some nick =>
          if mem sid (map s_id (students db))
          then Throw (QueryFailedError (unique_violation "id" sid))
          else if email_taken (StudentEntity.email e1) None (students db)
          then Throw (QueryFailedError
                        (unique_violation "email" (StudentEntity.email e1)))
          else
            let row' := {| s_id := sid;
                           s_name := StudentEntity.name e1;
                           s_age := age_to_column (StudentEntity.age e1) None;
                           s_email := StudentEntity.email e1;
                           s_nickname := nick;
                           s_gender := StudentEntity.gender e1;
                           s_subjects := StudentEntity.subjects e1 |} in
            save_grades uuid sid (StudentEntity.set_id e1 sid) db
              (students db ++ [row'])%list n1 true
      end
  end.

Definition find_user_by_email (email : string) (db : Database) : option UserRow :=
  find (fun r => u_email r =? email) (users db).

Definition find_user_by_id (id : string) (db : Database) : option UserRow :=
  find (fun r => u_id r =? id) (users db).

Definition to_user (r : UserRow) : UserEntity.User :=
  {| UserEntity.id := Some (u_id r);
     UserEntity.email := u_email r;
     UserEntity.fullName := Some (u_fullName r);
     UserEntity.password := Some (u_password r);
     UserEntity.isActive := Some (u_isActive r);
     UserEntity.roles := Some (u_roles r) |}.

(** [save(user)] of an entity that is not in the table yet (the only
    save of a user in the repository): the listener runs, the row is
    inserted with the column defaults ([isActive] true, [roles]
    {teacher}), and the generated id and the defaults are written back
    into the entity. *)
Definition save_user (uuid : nat -> string) (e : UserEntity.User)
    (db : Database) (n : nat)
  : Result (UserEntity.User * Database * nat) :=
  let e1 := UserEntity.checkFieldsBeforeChanges e in
  let '(uid, n1) :=
    match UserEntity.id e1 with
    | Some i => (i, n)
    | None => (uuid n, S n)
    end in
  match UserEntity.fullName e1, UserEntity.password e1 with
  | Some fn, Some pw =>
      if mem uid (map u_id (users db))
      then Throw (QueryFailedError (unique_violation "id" uid))
      else if mem (UserEntity.email e1) (map u_email (users db))
      then Throw (QueryFailedError (unique_violation "email" (UserEntity.email e1)))
      else
        let row := {| u_id := uid; u_email := UserEntity.email e1;
                      u_fullName := fn; u_password := pw;
                      u_isActive := match UserEntity.isActive e1 with
                                    | Some b => b
                                    | None => true
                                    end;
                      u_roles := match UserEntity.roles e1 with
                                 | Some r => r
                                 | None => ["teacher"]
                                 end |} in
        Ok (to_user row,
            {| students := students db; grades := grades db;
               users := (users db ++ [row])%list |}, n1)
  | _, _ => Throw (QueryFailedError not_null_violation)
  end.

End Orm.

(* ================================================================== *)
(** ** The outside world and the monad of the service methods *)

(** The persistence calls that go to the database connection. *)
Inductive Op : Type :=
| Connect
| StartTransaction
| DeleteGrades
| SaveInTransaction
| CommitTransaction
| RollbackTransaction
| Release
| SaveStudent
| SaveUser
| DeleteAllStudents.

(** One persistence call of a run and whether it returned or threw. *)
Inductive Call : Type :=
| Done (o : Op)
| Failed (o : Op).

(** Everything outside the process: the committed tables; the working
    copy of the tables inside the open transaction of the current query
    runner, if any; the number of pool connections held; the counter
    behind random draws; the clock; the server-side log; and the
    environment's decision, per call, to make it fail (a lost connection,
    a timeout, a violated constraint of its own). *)
Record World := {
  durable : Orm.Database;
  transaction : option Orm.Database;
  connections : nat;
  entropy : nat;
  clock : Z;
  logged : list Exception;
  faults : Op -> option DriverError
}.

Definition set_durable (w : World) (db : Orm.Database) : World :=
  {| durable := db; transaction := transaction w; connections := connections w;
     entropy := entropy w; clock := clock w; logged := logged w; faults := faults w |}.

Definition set_transaction (w : World) (t : option Orm.Database) : World :=
  {| durable := durable w; transaction := t; connections := connections w;
     entropy := entropy w; clock := clock w; logged := logged w; faults := faults w |}.

Definition set_connections (w : World) (c : nat) : World :=
  {| durable := durable w; transaction := transaction w; connections := c;
     entropy := entropy w; clock := clock w; logged := logged w; faults := faults w |}.

Definition set_entropy (w : World) (n : nat) : World :=
  {| durable := durable w; transaction := transaction w; connections := connections w;
     entropy := n; clock := clock w; logged := logged w; faults := faults w |}.

Definition set_logged (w : World) (l : list Exception) : World :=
  {| durable := durable w; transaction := transaction w; connections := connections w;
     entropy := entropy w; clock := clock w; logged := l; faults := faults w |}.

(** The result of running a method: how it ended, the world it left and
    the persistence calls it made, oldest first. *)
Record Run (A : Type) := {
  outcome : Result A;
  world : World;
  calls : list Call
}.
Arguments outcome {A} r.
Arguments world {A} r.
Arguments calls {A} r.

Definition M (A : Type) : Type := World -> Run A.

Definition ret {A : Type} (a : A) : M A :=
  fun w => {| outcome := Ok a; world := w; calls := [] |}.

Definition throw {A : Type} (e : Exception) : M A :=
  fun w => {| outcome := Throw e; world := w; calls := [] |}.

(** The calls made so far, put before those of the rest of the run. *)
Definition after {A : Type} (earlier : list Call) (r : Run A) : Run A :=
  match r with
  | {| outcome := o; world := w; calls := c |} =>
      {| outcome := o; world := w; calls := (earlier ++ c)%list |}
  end.

Definition bind {A B : Type} (m : M A) (k : A -> M B) : M B :=
  fun w =>
    match m w with
    | {| outcome := Throw e; world := w1; calls := c1 |} =>
        {| outcome := Throw e; world := w1; calls := c1 |}
    | {| outcome := Ok a; world := w1; calls := c1 |} => after c1 (k a w1)
    end.

(** [try { body } catch (error) { handler }]. *)
Definition try_catch {A : Type} (body : M A) (handler : Exception -> M A) : M A :=
  fun w =>
    match body w with
    | {| outcome := Ok a; world := w1; calls := c1 |} =>
        {| outcome := Ok a; world := w1; calls := c1 |}
    | {| outcome := Throw e; world := w1; calls := c1 |} => after c1 (handler e w1)
    end.

Declare Scope monad_scope.
Delimit Scope monad_scope with monad.
Notation "x <- c1 ;; c2" := (bind c1 (fun x => c2))
  (at level 61, c1 at next level, right associativity) : monad_scope.
Notation "c1 ;; c2" := (bind c1 (fun _ => c2))
  (at level 61, right associativity) : monad_scope.
Open Scope monad_scope.

(** A persistence call: it fails when the environment says so, or when
    the action itself is refused; a failed call changes nothing. *)
Definition call {A : Type} (o : Op) (action : World -> Result (A * World)) : M A :=
  fun w =>
    match faults w o with
    | Some err =>
        {| outcome := Throw (QueryFailedError err); world := w; calls := [Failed o] |}
    | None =>
        match action w with
        | Ok (a, w') => {| outcome := Ok a; world := w'; calls := [Done o] |}
        | Throw e => {| outcome := Throw e; world := w; calls := [Failed o] |}
        end
    end.

(** [this.logger.error(error)]. *)
Definition logger_error (error : Exception) : M unit :=
  fun w => {| outcome := Ok tt;
              world := set_logged w (logged w ++ [error])%list;
              calls := [] |}.

(** TypeORM's QueryRunner: one pool connection and the transaction on
    it.  Statements of the runner's manager see the working copy. *)
Module QueryRunner.
Section Runner.
Context {lib : Externals}.

(** [dataSource.createQueryRunner()]: a new runner, no transaction. *)
Definition createQueryRunner : M unit :=
  fun w => {| outcome := Ok tt; world := set_transaction w None; calls := [] |}.

Definition connect : M unit :=
  call Connect (fun w => Ok (tt, set_connections w (S (connections w)))).

Definition startTransaction : M unit :=
  call StartTransaction
    (fun w => match transaction w with
              | Some _ => Throw TransactionAlreadyStartedError
              | None => Ok (tt, set_transaction w (Some (durable w)))
              end).

(** The tables a statement of the runner reads and writes: the working
    copy of its open transaction or, outside a transaction, the committed
    tables. *)
Definition working (w : World) : Orm.Database :=
  match transaction w with
  | Some db => db
  | None => durable w
  end.

Definition set_working (w : World) (db : Orm.Database) : World :=
  match transaction w with
  | Some _ => set_transaction w (Some db)
  | None => set_durable w db
  end.

(** [manager.delete(Grade, {student: {id}})]. *)
Definition manager_delete_grades (id : string) : M unit :=
  call DeleteGrades
    (fun w =>
       let db := working w in
       Ok (tt, set_working w
                 {| Orm.students := Orm.students db;
                    Orm.grades := Orm.delete_grades_of id (Orm.grades db);
                    Orm.users := Orm.users db |})).

(** [manager.save(student)]. *)
Definition manager_save (student : StudentEntity.Student) : M StudentEntity.Student :=
  call SaveInTransaction
    (fun w =>
       match Orm.save_student uuid_generate_v4 student (working w) (entropy w) with
       | Throw e => Throw e
       | Ok (student', db', n') => Ok (student', set_entropy (set_working w db') n')
       end).

Definition commitTransaction : M unit :=
  call CommitTransaction
    (fun w => match transaction w with
              | None => Throw TransactionNotStartedError
              | Some db => Ok (tt, set_transaction (set_durable w db) None)
              end).

Definition rollbackTransaction : M unit :=
  call RollbackTransaction
    (fun w => match transaction w with
              | None => Throw TransactionNotStartedError
              | Some _ => Ok (tt, set_transaction w None)
              end).

(** [queryRunner.release()].  [connections] counts the connections taken
    by [connect] and not given back by a call of [release]; a connection
    the server has terminated is freed by the pool on its own, which this
    count does not show. *)
Definition release : M unit :=
  call Release (fun w => Ok (tt, set_connections w (pred (connections w)))).

End Runner.
End QueryRunner.

(* ================================================================== *)
(** ** students.service.ts *)

Module StudentsService.
Import Js.
Section Service.
Context {lib : Externals}.

(** [gradeRepository.create(grade)]: a Grade with the properties of
    the given object. *)
Definition gradeRepository_create (g : GradeEntity.Grade) : GradeEntity.Grade := g.

Definition elements {A : Type} (l : option (list A)) : list A :=
  match l with
  | Some xs => xs
  | None => []
  end.

(** [studentRepository.create({...studentDetails, grade})]. *)
Definition studentRepository_create (dto : CreateStudent.CreateStudentDto)
    (grade : list GradeEntity.Grade) : StudentEntity.Student :=
  {| StudentEntity.id := None;
     StudentEntity.name := CreateStudent.name dto;
     StudentEntity.age := match CreateStudent.age dto with
                          | Some n => value n
                          | None => undefined
                          end;
     StudentEntity.email := CreateStudent.email dto;
     StudentEntity.nickname := None;
     StudentEntity.gender := CreateStudent.gender dto;
     StudentEntity.subjects := CreateStudent.subjects dto;
     StudentEntity.grade := Some grade |}.

(** [studentRepository.save(student)]: one statement, committed by
    itself. *)
Definition studentRepository_save (student : StudentEntity.Student)
  : M StudentEntity.Student :=
  call SaveStudent
    (fun w =>
       match Orm.save_student uuid_generate_v4 student (durable w) (entropy w) with
       | Throw e => Throw e
       | Ok (student', db', n') => Ok (student', set_entropy (set_durable w db') n')
       end).

(** The properties present in the DTO replace those of the loaded
    entity. *)
Definition merge (e : StudentEntity.Student) (dto : UpdateStudent.UpdateStudentDto)
  : StudentEntity.Student :=
  {| StudentEntity.id := StudentEntity.id e;
     StudentEntity.name := match UpdateStudent.name dto with
                           | Some x => x
                           | None => StudentEntity.name e
                           end;
     StudentEntity.age := match UpdateStudent.age dto with
                          | Some n => value n
                          | None => StudentEntity.age e
                          end;
     StudentEntity.email := match UpdateStudent.email dto with
                            | Some x => x
                            | None => StudentEntity.email e
                            end;
     StudentEntity.nickname := StudentEntity.nickname e;
     StudentEntity.gender := match UpdateStudent.gender dto with
                             | Some x => x
                             | None => StudentEntity.gender e
                             end;
     StudentEntity.subjects := match UpdateStudent.subjects dto with
                               | Some x => x
                               | None => StudentEntity.subjects e
                               end;
     StudentEntity.grade := StudentEntity.grade e |}.

(** [studentRepository.preload({id, ...studentDetails})]: the row with
    that id, loaded with its relations and merged with the given
    properties; [undefined] when there is none.  It reads the committed
    tables.  The code itself does not test the id: it is the store that
    refuses a string it cannot read as a uuid, and [isUUID] stands for
    that test here (see [Externals]); the two agree on ids written as
    the store writes them and on strings that are no uuid in any
    spelling. *)
Definition studentRepository_preload (id : string)
    (studentDetails : UpdateStudent.UpdateStudentDto)
  : M (option StudentEntity.Student) :=
  fun w =>
    if isUUID id
    then ret (option_map (fun r => merge (Orm.to_student (durable w) r) studentDetails)
                         (Orm.find_student id (durable w))) w
    else throw (QueryFailedError invalid_uuid) w.

(** [studentRepository.findOneBy({id: term})]. *)
Definition studentRepository_findOneBy (id : string)
  : M (option StudentEntity.Student) :=
  fun w =>
    if isUUID id
    then ret (option_map (Orm.to_student (durable w))
                         (Orm.find_student id (durable w))) w
    else throw (QueryFailedError invalid_uuid) w.

(** The query builder of [findOne]:
    [WHERE UPPER(name) = :name OR nickname = :nickname], joined with
    the grades, first match.  [UPPER] of the store is [Js.toUpperCase]:
    on ASCII names the two agree (in a database whose locale upper-cases
    ASCII letters the usual way); on other names they need not. *)
Definition queryBuilder_getOne (name nickname : string)
  : M (option StudentEntity.Student) :=
  fun w =>
    ret (option_map (Orm.to_student (durable w))
           (find (fun r => (toUpperCase (Orm.s_name r) =? name)
                           || (Orm.s_nickname r =? nickname))
                 (Orm.students (durable w)))) w.

Definition handleException (error : Exception) : M unit :=
  logger_error error ;;
  if match error_code error with
     | Some c => c =? "23505"
     | None => false
     end
  then throw (InternalServerErrorException (error_detail error))
  else ret tt.

(** A method whose [catch] block runs to its end returns [undefined]:
    the result is an [option]. *)
Definition create (createStudentDto : CreateStudent.CreateStudentDto)
  : M (option StudentEntity.Student) :=
  try_catch
    (let grades := elements (CreateStudent.grades createStudentDto) in
     let student :=
       studentRepository_create createStudentDto (map gradeRepository_create grades) in
     student <- studentRepository_save student ;;
     ret (Some student))
    (fun error => handleException error ;; ret None).

Definition findOne (term : string) : M StudentEntity.Student :=
  student <- (if isUUID term
              then studentRepository_findOneBy term
              else queryBuilder_getOne (toUpperCase term) (toLowerCase term)) ;;
  match student with
  | None => throw (NotFoundException ("Student with " ++ term ++ " not found"))
  | Some student => ret student
  end.

(** [update].  The [try] block ends in [return this.findOne(id)]
    without [await]: what [findOne] throws is not caught by the [catch]
    of this method, so it runs here after the block. *)
Definition update (id : string) (updateStudentDto : UpdateStudent.UpdateStudentDto)
  : M (option StudentEntity.Student) :=
  let grades := UpdateStudent.grades updateStudentDto in
  student <- studentRepository_preload id updateStudentDto ;;
  match student with
  | None => throw (NotFoundException ("Student with id " ++ id ++ " not found"))
  | Some student =>
      QueryRunner.createQueryRunner ;;
      QueryRunner.connect ;;
      QueryRunner.startTransaction ;;
      committed <-
        try_catch
          (student <- (if truthy_array grades
                       then
                         QueryRunner.manager_delete_grades id ;;
                         ret (StudentEntity.set_grade student
                                (Some (map gradeRepository_create (elements grades))))
                       else ret student) ;;
           QueryRunner.manager_save student ;;
           QueryRunner.commitTransaction ;;
           QueryRunner.release ;;
           ret true)
          (fun error =>
             QueryRunner.rollbackTransaction ;;
             QueryRunner.release ;;
             handleException error ;;
             ret false) ;;
      if committed : bool
      then (student <- findOne id ;; ret (Some student))
      else ret None
  end.

(** [deleteAllStudents]: [DELETE FROM student]; the foreign key of
    [grade] is ON DELETE CASCADE.  The promise of [execute()] is
    returned without [await], so its rejection does not pass through
    the [catch] of the method. *)
Definition deleteAllStudents : M unit :=
  call DeleteAllStudents
    (fun w =>
       let db := durable w in
       Ok (tt, set_durable w
                 {| Orm.students := [];
                    Orm.grades := filter (fun g => match Orm.g_studentId g with
                                                   | Some _ => false
                                                   | None => true
                                                   end) (Orm.grades db);
                    Orm.users := Orm.users db |})).

(** [studentRepository.remove(student)]: [DELETE FROM student WHERE id
    = ...] for the entity's id; the grades that reference the row go with
    it ([onDelete: 'CASCADE']).  The statement is taken to execute. *)
Definition studentRepository_remove (student : StudentEntity.Student) : M unit :=
  fun w =>
    match StudentEntity.id student with
    | None => ret tt w
    | Some id =>
        let db := durable w in
        ret tt (set_durable w
                  {| Orm.students :=
                       filter (fun r => negb (Orm.s_id r =? id)) (Orm.students db);
                     Orm.grades := Orm.delete_grades_of id (Orm.grades db);
                     Orm.users := Orm.users db |})
    end.

Definition remove (id : string) : M unit :=
  student <- findOne id ;;
  studentRepository_remove student.

End Service.
End StudentsService.

(* ================================================================== *)
(** ** auth.service.ts *)

Module AuthService.
Section Service.
Context {lib : Externals}.

(** The object literal [{...user, token}] the service returns. *)
Record AuthResponse := {
  user : UserEntity.User;
  token : string
}.

(** [userRepository.create({...userData, password})]. *)
Definition userRepository_create (email fullName password : string) : UserEntity.User :=
  {| UserEntity.id := None;
     UserEntity.email := email;
     UserEntity.fullName := Some fullName;
     UserEntity.password := Some password;
     UserEntity.isActive := None;
     UserEntity.roles := None |}.

Definition userRepository_save (user : UserEntity.User) : M UserEntity.User :=
  call SaveUser
    (fun w =>
       match Orm.save_user uuid_generate_v4 user (durable w) (entropy w) with
       | Throw e => Throw e
       | Ok (user', db', n') => Ok (user', set_entropy (set_durable w db') n')
       end).

(** [userRepository.findOne({where: {email}, select: {email, password,
    id}})]: the row whose stored email equals the given string, with
    the three selected columns only. *)
Definition userRepository_findOne (email : string) : M (option UserEntity.User) :=
  fun w =>
    ret (option_map
           (fun r => {| UserEntity.id := Some (Orm.u_id r);
                        UserEntity.email := Orm.u_email r;
                        UserEntity.fullName := None;
                        UserEntity.password := Some (Orm.u_password r);
                        UserEntity.isActive := None;
                        UserEntity.roles := None |})
           (Orm.find_user_by_email email (durable w))) w.

(** [bcrypt.hashSync(password, 10)]; the salt consumes randomness. *)
Definition encryptPassword (password : string) : M string :=
  fun w => ret (hashSync password 10 (entropy w)) (set_entropy w (S (entropy w))).

(** [jwtService.sign(payload)]. *)
Definition getJwtToken (payload : JwtInterface.Jwt) : M string :=
  fun w => ret (sign payload (clock w)) w.

Definition handleException (error : Exception) : M unit :=
  logger_error error ;;
  if match error_code error with
     | Some c => c =? "23505"
     | None => false
     end
  then throw (InternalServerErrorException (error_detail error))
  else ret tt.

(** [{...user, token: getJwtToken({id: user.id, email: user.email})}];
    a saved or loaded entity has its id. *)
Definition respond (user : UserEntity.User) : M AuthResponse :=
  match UserEntity.id user with
  | None => throw (TypeError "user.id is undefined")
  | Some id =>
      token <- getJwtToken {| JwtInterface.id := id;
                              JwtInterface.email := UserEntity.email user |} ;;
      ret {| user := user; token := token |}
  end.

(** Registration.  As in the students service, a [catch] block that
    runs to its end makes the method return [undefined]. *)
Definition create (createUserDto : CreateUser.CreateUserDto) : M (option AuthResponse) :=
  try_catch
    (hashed <- encryptPassword (CreateUser.password createUserDto) ;;
     let user := userRepository_create (CreateUser.email createUserDto)
                   (CreateUser.fullName createUserDto) hashed in
     user <- userRepository_save user ;;
     let user := UserEntity.delete_password user in
     response <- respond user ;;
     ret (Some response))
    (fun error => handleException error ;; ret None).

Definition login (loginDto : Login.LoginDto) : M AuthResponse :=
  let email := Login.email loginDto in
  let password := Login.password loginDto in
  user <- userRepository_findOne email ;;
  match user with
  | None => throw (NotFoundException ("User " ++ email ++ " not found"))
  | Some user =>
      match UserEntity.password user with
      | None => throw (TypeError "data and hash arguments required")
      | Some hash =>
          if negb (compareSync password hash)
          then throw (UnauthorizedException "Email or password incorrect")
          else
            let user := UserEntity.delete_password user in
            respond user
      end
  end.

End Service.
End AuthService.

(* ================================================================== *)
(** ** jwt.strategy.ts, user-role.guard.ts and the guard pipeline *)

Module Http.

(** What the guards read of a request: the Authorization header and
    the user an earlier guard attached. *)
Record Request := {
  authorization : option string;
  user : option UserEntity.User
}.

(** The execution context of a guard: the request and the metadata
    set on the route handler under the key 'roles'. *)
Record ExecutionContext := {
  request : Request;
  handler_roles : option (list string)
}.

End Http.

Module JwtStrategy.
Section Strategy.
Context {lib : Externals}.

Definition userRepository_findOneBy (id : string) : M (option UserEntity.User) :=
  fun w => ret (option_map Orm.to_user (Orm.find_user_by_id id (durable w))) w.

Definition validate (payload : JwtInterface.Jwt) : M UserEntity.User :=
  user <- userRepository_findOneBy (JwtInterface.id payload) ;;
  match user with
  | None => throw (UnauthorizedException "Token not valid")
  | Some user =>
      if negb (match UserEntity.isActive user with
               | Some b => b
               | None => false
               end)
      then throw (UnauthorizedException "User is not active")
      else ret (UserEntity.delete_password user)
  end.

(** [AuthGuard()] with this strategy: the token of an Authorization
    header with the scheme bearer (in either case) is verified,
    [validate] resolves the account, and the account is attached to the
    request.  The token is what follows the scheme and ONE space: this
    is what passport-jwt extracts from a header made of a scheme, one
    space and a token without white space, and from a header of one word
    (no token); passport-jwt also reads headers with other white space
    between or after the two words, which this definition turns away. *)
Definition AuthGuard (req : Http.Request) : M Http.Request :=
  match Http.authorization req with
  | None => throw (UnauthorizedException "Unauthorized")
  | Some header =>
      if prefix "bearer " (Js.toLowerCase header)
      then
        fun w =>
          match verify (substring 7 (String.length header - 7) header) (clock w) with
          | None => throw (UnauthorizedException "Unauthorized") w
          | Some payload =>
              (user <- validate payload ;;
               ret {| Http.authorization := Http.authorization req;
                      Http.user := Some user |}) w
          end
      else throw (UnauthorizedException "Unauthorized")
  end.

End Strategy.
End JwtStrategy.

Module UserRoleGuard.

(** [this.reflector.get('roles', context.getHandler())]. *)
Definition reflector_get_roles (context : Http.ExecutionContext) : option (list string) :=
  Http.handler_roles context.

(** [canActivate]: reads the metadata (and prints it) and returns
    [true]. *)
Definition canActivate (context : Http.ExecutionContext) : bool :=
  let validRoles := reflector_get_roles context in
  true.

(** The body that the comment inside [canActivate] gives as the
    correct implementation, transcribed from that comment. *)
Definition canActivate_documented (context : Http.ExecutionContext) : Result bool :=
  let validRoles := reflector_get_roles context in
  match validRoles with
  | None => Ok true
  | Some [] => Ok true
  | Some validRoles =>
      match Http.user (Http.request context) with
      | None => Ok false
      | Some user =>
          let hasRole :=
            existsb (fun role =>
                       Orm.mem role (match UserEntity.roles user with
                                     | Some rs => rs
                                     | None => []
                                     end)) validRoles in
          if negb hasRole
          then Throw (ForbiddenException "User does not have required role")
          else Ok true
      end
  end.

End UserRoleGuard.

Module Router.
Section Pipeline.
Context {lib : Externals}.

Inductive Guard : Type :=
| AuthGuard
| UserRoleGuard.

(** A route as its decorators declare it: [@UseGuards(...)] and
    [@SetMetadata('roles', ...)]. *)
Record Route := {
  guards : list Guard;
  roles : option (list string)
}.

(** A guard that returns [false] makes the framework answer with
    ForbiddenException. *)
Definition run_guard (route : Route) (g : Guard) (req : Http.Request) : M Http.Request :=
  match g with
  | AuthGuard => JwtStrategy.AuthGuard req
  | UserRoleGuard =>
      if UserRoleGuard.canActivate
           {| Http.request := req; Http.handler_roles := roles route |}
      then ret req
      else throw (ForbiddenException "Forbidden resource")
  end.

Fixpoint run_guards (route : Route) (gs : list Guard) (req : Http.Request)
  : M Http.Request :=
  match gs with
  | [] => ret req
  | g :: rest => req' <- run_guard route g req ;; run_guards route rest req'
  end.

(** A request reaches the handler after every guard of the route let
    it pass; neither main.ts nor a module registers a global guard. *)
Definition dispatch {A : Type} (route : Route) (handler : Http.Request -> M A)
    (req : Http.Request) : M A :=
  req' <- run_guards route (guards route) req ;;
  handler req'.

End Pipeline.
End Router.

(* ================================================================== *)
(** ** seed.service.ts and seed.controller.ts *)

Module SeedService.
Section Service.
Context {lib : Externals}.

(** A started promise, settled: its outcome is kept, not thrown. *)
Definition settle {A : Type} (p : M A) : M (Result A) :=
  fun w =>
    match p w with
    | {| outcome := o; world := w1; calls := c1 |} =>
        {| outcome := Ok o; world := w1; calls := c1 |}
    end.

Fixpoint settle_each {A : Type} (ps : list (M A)) : M (list (Result A)) :=
  match ps with
  | [] => ret []
  | p :: rest =>
      r <- settle p ;;
      rs <- settle_each rest ;;
      ret (r :: rs)
  end.

Fixpoint collect {A : Type} (rs : list (Result A)) : Result (list A) :=
  match rs with
  | [] => Ok []
  | Throw e :: _ => Throw e
  | Ok a :: rest =>
      match collect rest with
      | Ok xs => Ok (a :: xs)
      | Throw e => Throw e
      end
  end.

(** [await Promise.all(insertPromises)]: every insertion was started
    by the [forEach]; the await rejects with the first rejection.  The
    insertions are taken in the order they were started. *)
Definition Promise_all {A : Type} (ps : list (M A)) : M (list A) :=
  rs <- settle_each ps ;;
  match collect rs with
  | Ok xs => ret xs
  | Throw e => throw e
  end.

Definition insertNewStudents : M bool :=
  StudentsService.deleteAllStudents ;;
  let students := initialData in
  let insertPromises := map StudentsService.create students in
  Promise_all insertPromises ;;
  ret true.

Definition runSeed : M string :=
  insertNewStudents ;;
  ret "SEED EXECUTED".

End Service.
End SeedService.

Module SeedController.
Section Controller.
Context {lib : Externals}.

(** [@Controller('seed')], [@Get() executeSeed()]: no [@UseGuards],
    no role metadata. *)
Definition route : Router.Route :=
  {| Router.guards := []; Router.roles := None |}.

Definition executeSeed : M string := SeedService.runSeed.

(** GET /api/seed. *)
Definition get_seed (req : Http.Request) : M string :=
  Router.dispatch route (fun _ => executeSeed) req.

End Controller.
End SeedController.

Module AuthController.

(** [@Get('private') @UseGuards(AuthGuard(), UserRoleGuard)
    @SetMetadata('roles', ['admin', 'teacher'])]. *)
Definition private_route : Router.Route :=
  {| Router.guards := [Router.AuthGuard; Router.UserRoleGuard];
     Router.roles := Some ["admin"; "teacher"] |}.

End AuthController.

(* ================================================================== *)
(** ** role-protected.decorator.ts and get-user.decorator.ts *)

Module Decorators.

(** The metadata attached to a route handler: keys with their values,
    the latest definition of a key first. *)
Definition Metadata : Type := list (string * list string).

(** [SetMetadata(key, value)] applied to a handler. *)
Definition SetMetadata (key : string) (value : list string) (target : Metadata)
  : Metadata :=
  (key, value) :: target.

(** [this.reflector.get(key, handler)]: the value defined for the key,
    [undefined] when there is none. *)
Definition reflector_get (key : string) (target : Metadata) : option (list string) :=
  option_map snd (find (fun entry => fst entry =? key) target).

(** [RoleProtected = (...args) => SetMetadata('role-protected', args)]. *)
Definition RoleProtected (args : list string) (target : Metadata) : Metadata :=
  SetMetadata "role-protected" args target.

(** The execution context UserRoleGuard gets for a handler with this
    metadata: the guard asks the reflector for the key 'roles'. *)
Definition context_of (target : Metadata) (req : Http.Request) : Http.ExecutionContext :=
  {| Http.request := req; Http.handler_roles := reflector_get "roles" target |}.

(** The parameter decorator [GetUser]. *)
Definition GetUser (context : Http.ExecutionContext) : Result UserEntity.User :=
  let request := Http.request context in
  match Http.user request with
  | None => Throw (InternalServerErrorException (Some "User not found"))
  | Some user => Ok user
  end.

End Decorators.

(* ================================================================== *)
(** ** A concrete instance of the libraries, and sample data *)

Module Sample.
Import Js.

Definition is_hex (c : ascii) : bool :=
  let n := nat_of_ascii c in
  ((48 <=? n)%nat && (n <=? 57)%nat)
  || ((65 <=? n)%nat && (n <=? 70)%nat)
  || ((97 <=? n)%nat && (n <=? 102)%nat).

Fixpoint shape (groups : list nat) (s : string) : bool :=
  match groups with
  | [] => s =? ""
  | O :: rest =>
      match rest, s with
      | [], EmptyString => true
      | _ :: _, String "-" r => shape rest r
      | _, _ => false
      end
  | S k :: rest =>
      match s with
      | String c r => is_hex c && shape (k :: rest) r
      | EmptyString => false
      end
  end.

(** Hexadecimal groups 8-4-4-4-12, either case. *)
Definition isUUID (s : string) : bool := shape [8; 4; 4; 4; 12]%nat s.

Fixpoint zeros (n : nat) : string :=
  match n with
  | O => ""
  | S k => "0" ++ zeros k
  end.

Definition uuid (k : nat) : string :=
  let digits := NilZero.string_of_uint (Nat.to_uint k) in
  "00000000-0000-4000-8000-" ++ zeros (12 - String.length digits) ++ digits.

(** Stand-ins for bcrypt and the JWT library: they have the types the
    services need and the round trip of a hash; they are not
    cryptography. *)
Definition hashSync (password : string) (rounds salt : nat) : string :=
  "$2b$" ++ NilZero.string_of_uint (Nat.to_uint rounds) ++ "$"
  ++ NilZero.string_of_uint (Nat.to_uint salt) ++ "$" ++ password.

Fixpoint after_last_dollar (s acc : string) : string :=
  match s with
  | EmptyString => acc
  | String c r => if (c =? "$")%char then after_last_dollar r r else after_last_dollar r acc
  end.

Definition compareSync (plaintext hash : string) : bool :=
  prefix "$2b$" hash && (after_last_dollar hash "" =? plaintext).

Definition sign (payload : JwtInterface.Jwt) (now : Z) : string :=
  "jwt." ++ JwtInterface.id payload ++ "." ++ JwtInterface.email payload
  ++ "." ++ string_of_number now.

Definition verify (token : string) (now : Z) : option JwtInterface.Jwt :=
  if token =? "jwt.00000000-0000-4000-8000-0000000000a1.ana@example.com.0"
  then (if (now <? 3600)%Z
        then Some {| JwtInterface.id := "00000000-0000-4000-8000-0000000000a1";
                     JwtInterface.email := "ana@example.com" |}
        else None)
  else None.

Definition math : GradeEntity.Grade :=
  {| GradeEntity.id := None; GradeEntity.subject := "Math"; GradeEntity.grade := "4.5" |}.
Definition science : GradeEntity.Grade :=
  {| GradeEntity.id := None; GradeEntity.subject := "Science"; GradeEntity.grade := "4.0" |}.
Definition art : GradeEntity.Grade :=
  {| GradeEntity.id := None; GradeEntity.subject := "Art"; GradeEntity.grade := "3.5" |}.

Definition seed_students : list CreateStudent.CreateStudentDto :=
  [ {| CreateStudent.name := "Gus"; CreateStudent.age := Some 33%Z;
       CreateStudent.email := "gus@gmail.com"; CreateStudent.gender := "Male";
       CreateStudent.subjects := ["math"; "P.E"];
       CreateStudent.grades := Some [math] |};
    {| CreateStudent.name := "Valentina"; CreateStudent.age := Some 21%Z;
       CreateStudent.email := "valentina@gmail.com"; CreateStudent.gender := "Female";
       CreateStudent.subjects := ["science"];
       CreateStudent.grades := Some [science; art] |} ].

Definition lib : Externals :=
  Build_Externals isUUID hashSync compareSync sign verify uuid seed_students.

Definition no_faults : Op -> option DriverError := fun _ => None.

Definition fail_at (o : Op) (err : DriverError) : Op -> option DriverError :=
  fun o' =>
    match o, o' with
    | Connect, Connect | StartTransaction, StartTransaction
    | DeleteGrades, DeleteGrades | SaveInTransaction, SaveInTransaction
    | CommitTransaction, CommitTransaction
    | RollbackTransaction, RollbackTransaction | Release, Release
    | SaveStudent, SaveStudent | SaveUser, SaveUser
    | DeleteAllStudents, DeleteAllStudents => Some err
    | _, _ => None
    end.

(** The driver error of a dropped connection: no SQLSTATE, no detail. *)
Definition connection_lost : DriverError := {| code := None; detail := None |}.

Definition juan_id : string := "00000000-0000-4000-8000-0000000000b1".
Definition math_id : string := "00000000-0000-4000-8000-0000000000c1".

(** The account registered as Ana@Example.com, stored normalized. *)
Definition ana : Orm.UserRow :=
  {| Orm.u_id := "00000000-0000-4000-8000-0000000000a1";
     Orm.u_email := "ana@example.com"; Orm.u_fullName := "Ana Gomez";
     Orm.u_password := hashSync "secret1" 10 7;
     Orm.u_isActive := true; Orm.u_roles := ["teacher"] |}.

(** One student, Juan Perez (20), owning one grade, Math 4.5, and the
    account of Ana. *)
Definition db0 : Orm.Database :=
  {| Orm.students :=
       [ {| Orm.s_id := juan_id; Orm.s_name := "Juan Perez"; Orm.s_age := Some 20%Z;
            Orm.s_email := "juan@example.com"; Orm.s_nickname := "juan_perez20";
            Orm.s_gender := "Male"; Orm.s_subjects := ["Math"] |} ];
     Orm.grades :=
       [ {| Orm.g_id := math_id; Orm.g_subject := "Math"; Orm.g_grade := "4.5";
            Orm.g_studentId := Some juan_id |} ];
     Orm.users := [ana] |}.

Definition empty_db : Orm.Database :=
  {| Orm.students := []; Orm.grades := []; Orm.users := [] |}.

Definition world_of (db : Orm.Database) (f : Op -> option DriverError) : World :=
  {| durable := db; transaction := None; connections := 0; entropy := 0;
     clock := 0%Z; logged := []; faults := f |}.

Definition no_update : UpdateStudent.UpdateStudentDto :=
  {| UpdateStudent.name := None; UpdateStudent.age := None;
     UpdateStudent.email := None; UpdateStudent.gender := None;
     UpdateStudent.subjects := None; UpdateStudent.grades := None |}.

Definition with_grades (gs : list GradeEntity.Grade) : UpdateStudent.UpdateStudentDto :=
  {| UpdateStudent.name := None; UpdateStudent.age := None;
     UpdateStudent.email := None; UpdateStudent.gender := None;
     UpdateStudent.subjects := None; UpdateStudent.grades := Some gs |}.

Definition with_age (n : Z) : UpdateStudent.UpdateStudentDto :=
  {| UpdateStudent.name := None; UpdateStudent.age := Some n;
     UpdateStudent.email := None; UpdateStudent.gender := None;
     UpdateStudent.subjects := None; UpdateStudent.grades := None |}.

(** The tables of [db0] with a second student, Maria Lopez (22), who
    owns the grade Art 3.5. *)
Definition maria_id : string := "00000000-0000-4000-8000-0000000000b2".
Definition art_id : string := "00000000-0000-4000-8000-0000000000c2".

Definition db1 : Orm.Database :=
  {| Orm.students :=
       (Orm.students db0
        ++ [ {| Orm.s_id := maria_id; Orm.s_name := "Maria Lopez"; Orm.s_age := Some 22%Z;
                Orm.s_email := "maria@example.com"; Orm.s_nickname := "maria_lopez22";
                Orm.s_gender := "Female"; Orm.s_subjects := ["Art"] |} ])%list;
     Orm.grades :=
       (Orm.grades db0
        ++ [ {| Orm.g_id := art_id; Orm.g_subject := "Art"; Orm.g_grade := "3.5";
                Orm.g_studentId := Some maria_id |} ])%list;
     Orm.users := Orm.users db0 |}.

End Sample.


(* ================================================================== *)
(** ** Conditions on the environment used in the statements *)

Module Conditions.
Section Conditions.
Context {lib : Externals}.











(** The number of space characters of a string. *)
Fixpoint spaces (s : string) : nat :=
  match s with
  | EmptyString => 0
  | String c r => (if (c =? " ")%char then 1 else 0) + spaces r
  end.

(** A string of ASCII characters only: on these the case and whitespace
    functions of [Js] are those of JavaScript. *)
Fixpoint is_ascii (s : string) : bool :=
  match s with
  | EmptyString => true
  | String c r => (nat_of_ascii c <? 128)%nat && is_ascii r
  end.

(** A string without white space. *)
Fixpoint no_space (s : string) : bool :=
  match s with
  | EmptyString => true
  | String c r => negb (Js.is_space c) && no_space r
  end.

(** An id written the way the store prints it: a UUID in lower case. *)
Definition canonical_id (id : string) : bool :=
  isUUID id && (Js.toLowerCase id =? id).

(** A search term on which the lookup of [findOne] is the one of the
    store: an id in the store's spelling, or ASCII text looked up among
    ASCII names. *)
Definition plain_term (term : string) (db : Orm.Database) : bool :=
  if isUUID term
  then Js.toLowerCase term =? term
  else is_ascii term && forallb (fun r => is_ascii (Orm.s_name r)) (Orm.students db).




End Conditions.
End Conditions.

(* ================================================================== *)
(** * Properties *)

(** ** Symbolic execution of a method *)

(** Case analysis on the innermost scrutinee the goal is stuck on. *)
Ltac break_match :=
  match goal with
  | |- context [match ?x with _ => _ end] =>
      lazymatch x with
      | context [match _ with _ => _ end] => fail
      | _ => destruct x eqn:?
      end
  end.

Ltac unfold_monad :=
  unfold bind, try_catch, after, call, logger_error, ret, throw.

Ltac unfold_runner :=
  unfold QueryRunner.createQueryRunner, QueryRunner.connect,
    QueryRunner.startTransaction, QueryRunner.manager_delete_grades,
    QueryRunner.manager_save, QueryRunner.commitTransaction,
    QueryRunner.rollbackTransaction, QueryRunner.release.

(** Runs a method on a symbolic world: every way it can go becomes one
    goal about the run it ends in. *)
Ltac run_cases := repeat (break_match; cbn).

Ltac inv H := inversion H; subst; clear H.

Arguments Orm.save_student : simpl never.
Arguments Orm.save_user : simpl never.
Arguments StudentsService.findOne : simpl never.

Section Reads.
Context {lib : Externals}.

(** [findOne] only reads: it leaves the world as it is and makes no
    persistence call. *)
Lemma findOne_reads :
  forall (term : string) (w : World),
    world (StudentsService.findOne term w) = w /\
    calls (StudentsService.findOne term w) = [].
Proof.
  intros term w.
  unfold StudentsService.findOne, StudentsService.studentRepository_findOneBy,
    StudentsService.queryBuilder_getOne.
  unfold_monad.
  run_cases; auto.
Qed.

Lemma findOne_run :
  forall (term : string) (w : World) (o : Result StudentEntity.Student)
         (w' : World) (c : list Call),
    StudentsService.findOne term w = {| outcome := o; world := w'; calls := c |} ->
    w' = w /\ c = [].
Proof.
  intros term w o w' c H.
  destruct (findOne_reads term w) as [Hw Hc].
  rewrite H in Hw, Hc. cbn in Hw, Hc. auto.
Qed.

End Reads.

(** The ways an [update] can go, each with the run it ends in; what
    [findOne] contributes at the end is replaced by the fact that it only
    reads. *)
Ltac run_update :=
  unfold StudentsService.update, StudentsService.studentRepository_preload,
    StudentsService.handleException;
  unfold_runner; unfold_monad;
  run_cases;
  repeat match goal with
         | H : StudentsService.findOne _ _ = _ |- _ =>
             apply findOne_run in H; destruct H; subst
         end.

(** ** The role gate (C1) *)

(** The guard grants every request, whatever the route declares. *)
Lemma canActivate_always :
  forall context : Http.ExecutionContext, UserRoleGuard.canActivate context = true.
Proof. reflexivity. Qed.

(** C1 (the code departs from the claim).  A route that permits only
    {admin}, called by an account whose roles are {teacher}: the guard of
    the code lets the request pass and the pipeline hands it to the
    handler, where the implementation documented inside the method throws
    ForbiddenException. *)
Theorem role_gate_grants_teacher_on_admin_route :
  let teacher :=
    {| UserEntity.id := Some "00000000-0000-4000-8000-0000000000a1";
       UserEntity.email := "ana@example.com";
       UserEntity.fullName := Some "Ana Gomez";
       UserEntity.password := None;
       UserEntity.isActive := Some true;
       UserEntity.roles := Some ["teacher"] |} in
  let req := {| Http.authorization := None; Http.user := Some teacher |} in
  let context := {| Http.request := req; Http.handler_roles := Some ["admin"] |} in
  let route := {| Router.guards := [Router.UserRoleGuard]; Router.roles := Some ["admin"] |} in
  UserRoleGuard.canActivate context = true /\
  UserRoleGuard.canActivate_documented context
    = Throw (ForbiddenException "User does not have required role") /\
  outcome (Router.dispatch (lib := Sample.lib) route (fun _ => ret "handler reached") req
             (Sample.world_of Sample.db0 Sample.no_faults))
    = Ok "handler reached".
Proof. repeat split. Qed.

(** ** Rollback of a failed update (C2) *)

Section Update.
Context {lib : Externals}.

(** C2.  Whenever the grade delete, the save (the parent row and the
    re-inserted grades) or the commit of an update fails, the method goes
    on to roll the transaction back, and the committed tables are what
    they were before the call: in particular the grades the record owned
    are all still there.  Unless the rollback call itself is made to
    fail, it succeeds and no transaction is left open. *)
Theorem update_failure_rolls_back :
  forall (id : string) (updateStudentDto : UpdateStudent.UpdateStudentDto) (w : World),
    let r := StudentsService.update id updateStudentDto w in
    In (Failed DeleteGrades) (calls r) \/
    In (Failed SaveInTransaction) (calls r) \/
    In (Failed CommitTransaction) (calls r) ->
    (In (Done RollbackTransaction) (calls r) \/
     In (Failed RollbackTransaction) (calls r)) /\
    (faults w RollbackTransaction = None ->
     In (Done RollbackTransaction) (calls r) /\ transaction (world r) = None) /\
    durable (world r) = durable w /\
    Orm.grades_of id (Orm.grades (durable (world r)))
      = Orm.grades_of id (Orm.grades (durable w)).
Proof.
  intros id dto w r. subst r.
  remember (fun r : Run (option StudentEntity.Student) =>
              In (Failed DeleteGrades) (calls r) \/
              In (Failed SaveInTransaction) (calls r) \/
              In (Failed CommitTransaction) (calls r) ->
              (In (Done RollbackTransaction) (calls r) \/
               In (Failed RollbackTransaction) (calls r)) /\
              (faults w RollbackTransaction = None ->
               In (Done RollbackTransaction) (calls r) /\ transaction (world r) = None) /\
              durable (world r) = durable w) as Q eqn:HQ.
  cut (Q (StudentsService.update id dto w)).
  { subst Q. intros H F. destruct (H F) as [R [T D]]. rewrite D. auto. }
  run_update.
  all: try subst Q; cbn.
  all: intuition (try discriminate; try congruence; auto 12).
Qed.

End Update.

(** The witness of C2: Juan's grades are replaced by Science and Art, and
    the save is cut off by a lost connection. *)
Lemma update_failure_rolls_back_witness :
  let w := Sample.world_of Sample.db0 (Sample.fail_at SaveInTransaction Sample.connection_lost) in
  let r := StudentsService.update (lib := Sample.lib) Sample.juan_id
             (Sample.with_grades [Sample.science; Sample.art]) w in
  (In (Done RollbackTransaction) (calls r) \/
   In (Failed RollbackTransaction) (calls r)) /\
  (In (Done RollbackTransaction) (calls r) /\ transaction (world r) = None) /\
  durable (world r) = durable w /\
  Orm.grades_of Sample.juan_id (Orm.grades (durable (world r)))
    = Orm.grades_of Sample.juan_id (Orm.grades (durable w)).
Proof.
  intros w r.
  assert (Hfailed : In (Failed DeleteGrades) (calls r) \/
                    In (Failed SaveInTransaction) (calls r) \/
                    In (Failed CommitTransaction) (calls r))
    by (right; left; vm_compute; tauto).
  destruct (@update_failure_rolls_back Sample.lib Sample.juan_id
              (Sample.with_grades [Sample.science; Sample.art]) w Hfailed)
    as [Hcalled [Hclosed [Hdurable Hgrades]]].
  split; [exact Hcalled |].
  split; [apply Hclosed; reflexivity |].
  split; [exact Hdurable | exact Hgrades].
Defined.


(** ** Nickname derivation (C3) *)

(** On insert the hook derives the nickname of the specification's
    example. *)
Lemma checkNicknameInsert_juan_perez :
  StudentEntity.nickname
    (StudentEntity.checkNicknameInsert
       (StudentsService.studentRepository_create
          {| CreateStudent.name := "Juan Perez"; CreateStudent.age := Some 20%Z;
             CreateStudent.email := "juan@example.com"; CreateStudent.gender := "Male";
             CreateStudent.subjects := ["Math"]; CreateStudent.grades := None |} []))
  = Some "juan_perez20".
Proof. reflexivity. Qed.

(** Only the first space of a name is replaced, and a missing age is
    appended as the word [undefined]. *)
Lemma checkNicknameInsert_other_names :
  StudentEntity.nickname
    (StudentEntity.checkNicknameInsert
       (StudentsService.studentRepository_create
          {| CreateStudent.name := "Juan Carlos Perez"; CreateStudent.age := Some 20%Z;
             CreateStudent.email := "jc@example.com"; CreateStudent.gender := "Male";
             CreateStudent.subjects := []; CreateStudent.grades := None |} []))
  = Some "juan_carlos perez20" /\
  StudentEntity.nickname
    (StudentEntity.checkNicknameInsert
       (StudentsService.studentRepository_create
          {| CreateStudent.name := "Juan Perez"; CreateStudent.age := None;
             CreateStudent.email := "jp@example.com"; CreateStudent.gender := "Male";
             CreateStudent.subjects := []; CreateStudent.grades := None |} []))
  = Some "juan_perezundefined".
Proof. split; reflexivity. Qed.

(** C3 (the code departs from the claim).  Juan Perez, 20, stored with
    the nickname juan_perez20, is updated with age 21.  The update hook
    starts from the stored nickname instead of the name, so the age is
    appended to the old suffix: the nickname persisted and returned is
    juan_perez2021, where the derivation from the merged name and age is
    juan_perez21. *)
Theorem update_age_appends_to_old_nickname :
  let w := Sample.world_of Sample.db0 Sample.no_faults in
  let r := StudentsService.update (lib := Sample.lib) Sample.juan_id (Sample.with_age 21) w in
  map Orm.s_nickname (Orm.students (durable w)) = ["juan_perez20"] /\
  map Orm.s_nickname (Orm.students (durable (world r))) = ["juan_perez2021"] /\
  match outcome r with
  | Ok (Some student) =>
      StudentEntity.name student = "Juan Perez" /\
      StudentEntity.age student = Js.value 21%Z /\
      StudentEntity.nickname student = Some "juan_perez2021"
  | _ => False
  end.
Proof. vm_compute. repeat split. Qed.

(** ** Email normalization and login (C5) *)

(** C5 (the code departs from the claim).  An account is registered as
    Juan@Example.com; the insert hook stores juan@example.com.  A login
    with the very string of the registration compares it, not normalized,
    with the stored email and fails with NotFound. *)
Theorem login_with_registered_spelling_is_not_found :
  let w := Sample.world_of Sample.empty_db Sample.no_faults in
  let registered :=
    AuthService.create (lib := Sample.lib)
      {| CreateUser.email := "Juan@Example.com"; CreateUser.fullName := "Juan Perez";
         CreateUser.password := "secret1" |} w in
  let r :=
    AuthService.login (lib := Sample.lib)
      {| Login.email := "Juan@Example.com"; Login.password := "secret1" |}
      (world registered) in
  map Orm.u_email (Orm.users (durable (world registered))) = ["juan@example.com"] /\
  outcome r = Throw (NotFoundException "User Juan@Example.com not found") /\
  (exists response,
     outcome (AuthService.login (lib := Sample.lib)
                {| Login.email := "juan@example.com"; Login.password := "secret1" |}
                (world registered)) = Ok response).
Proof. vm_compute. repeat split. eexists. reflexivity. Qed.

(** ** Duplicate email on registration (C6) *)

(** The counterexample of C6: registering Ana@Example.com again (stored
    normalized) is answered with status 500, not a conflict, and the
    message handed to the caller is the constraint-violation detail of the
    database, the same text that was logged. *)
Lemma register_duplicate_discloses_detail :
  let w := Sample.world_of Sample.db0 Sample.no_faults in
  let r :=
    AuthService.create (lib := Sample.lib)
      {| CreateUser.email := " Ana@Example.com"; CreateUser.fullName := "Ana G";
         CreateUser.password := "secret2" |} w in
  exists error,
    outcome r = Throw error /\
    http_status error = 500 /\
    response_message error = "Key (email)=(ana@example.com) already exists." /\
    logged (world r)
      = [QueryFailedError
           {| code := Some "23505";
              detail := Some "Key (email)=(ana@example.com) already exists." |}].
Proof. vm_compute. eexists. repeat split. Qed.

Section Register.
Context {lib : Externals}.

(** C6, amended.  When registration meets a stored account with the
    same normalized email (and the insert reaches the database), the
    driver's unique-violation error is logged, nothing is written, and
    the caller gets an InternalServerErrorException, status 500, whose
    message is that error's detail line. *)
Theorem register_duplicate_email :
  forall (createUserDto : CreateUser.CreateUserDto) (w : World),
    faults w SaveUser = None ->
    Orm.mem (Js.trim (Js.toLowerCase (CreateUser.email createUserDto)))
            (map Orm.u_email (Orm.users (durable w))) = true ->
    let r := AuthService.create createUserDto w in
    exists (err : DriverError) (line : string),
      code err = Some "23505" /\
      detail err = Some line /\
      outcome r = Throw (InternalServerErrorException (Some line)) /\
      http_status (InternalServerErrorException (Some line)) = 500 /\
      response_message (InternalServerErrorException (Some line)) = line /\
      logged (world r) = (logged w ++ [QueryFailedError err])%list /\
      durable (world r) = durable w.
Proof.
  intros dto w Hf Hdup r. subst r.
  unfold AuthService.create, AuthService.encryptPassword,
    AuthService.userRepository_save, AuthService.handleException,
    AuthService.userRepository_create.
  unfold_monad. cbn. rewrite Hf.
  unfold Orm.save_user. unfold Js.trim, Js.toLowerCase in Hdup. cbn. rewrite Hdup.
  destruct (Orm.mem _ (map Orm.u_id _)); cbn;
    eexists; eexists; repeat split; reflexivity.
Qed.

End Register.

(** The witness of C6: the same registration as in the counterexample. *)
Lemma register_duplicate_email_witness :
  let w := Sample.world_of Sample.db0 Sample.no_faults in
  let r :=
    AuthService.create (lib := Sample.lib)
      {| CreateUser.email := " Ana@Example.com"; CreateUser.fullName := "Ana G";
         CreateUser.password := "secret2" |} w in
  exists (err : DriverError) (line : string),
    code err = Some "23505" /\
    detail err = Some line /\
    outcome r = Throw (InternalServerErrorException (Some line)) /\
    http_status (InternalServerErrorException (Some line)) = 500 /\
    response_message (InternalServerErrorException (Some line)) = line /\
    logged (world r) = (logged w ++ [QueryFailedError err])%list /\
    durable (world r) = durable w.
Proof.
  apply (@register_duplicate_email Sample.lib); reflexivity.
Defined.

(** ** Failures swallowed by handleException (C7) *)

(** C7 (the code departs from the claim).  The connection is lost while
    a student is saved: the driver error has no code 23505, so
    [handleException] logs it and returns, and the method completes with
    [undefined]: no result and no error.  This holds for [create] and,
    after the rollback, for [update]. *)
Theorem save_failure_returns_undefined :
  let dto :=
    {| CreateStudent.name := "Juan Perez"; CreateStudent.age := Some 20%Z;
       CreateStudent.email := "jp@example.com"; CreateStudent.gender := "Male";
       CreateStudent.subjects := ["Math"]; CreateStudent.grades := None |} in
  let created :=
    StudentsService.create (lib := Sample.lib) dto
      (Sample.world_of Sample.empty_db (Sample.fail_at SaveStudent Sample.connection_lost)) in
  let updated :=
    StudentsService.update (lib := Sample.lib) Sample.juan_id
      (Sample.with_grades [Sample.science; Sample.art])
      (Sample.world_of Sample.db0
         (Sample.fail_at SaveInTransaction Sample.connection_lost)) in
  outcome created = Ok None /\
  calls created = [Failed SaveStudent] /\
  durable (world created) = Sample.empty_db /\
  outcome updated = Ok None /\
  calls updated = [Done Connect; Done StartTransaction; Done DeleteGrades;
                   Failed SaveInTransaction; Done RollbackTransaction; Done Release] /\
  durable (world updated) = Sample.db0.
Proof. vm_compute. repeat split. Qed.

(** ** Login (C8) *)

Section Login.
Context {lib : Externals}.

(** C8.  A login for an email no stored account has fails with
    NotFound; for a stored account whose hash the password does not
    verify against, with Unauthorized; otherwise it returns the account,
    its password removed, and a token signed in this call for the
    account's id and email.  In every case it writes nothing. *)
Theorem login_outcomes :
  forall (loginDto : Login.LoginDto) (w : World),
    let r := AuthService.login loginDto w in
    let email := Login.email loginDto in
    let password := Login.password loginDto in
    (Orm.find_user_by_email email (durable w) = None ->
     outcome r = Throw (NotFoundException ("User " ++ email ++ " not found"))) /\
    (forall account,
        Orm.find_user_by_email email (durable w) = Some account ->
        compareSync password (Orm.u_password account) = false ->
        outcome r = Throw (UnauthorizedException "Email or password incorrect")) /\
    (forall account,
        Orm.find_user_by_email email (durable w) = Some account ->
        compareSync password (Orm.u_password account) = true ->
        exists response,
          outcome r = Ok response /\
          UserEntity.id (AuthService.user response) = Some (Orm.u_id account) /\
          UserEntity.email (AuthService.user response) = Orm.u_email account /\
          UserEntity.password (AuthService.user response) = None /\
          AuthService.token response
            = sign {| JwtInterface.id := Orm.u_id account;
                      JwtInterface.email := Orm.u_email account |} (clock w)) /\
    world r = w.
Proof.
  intros dto w r email password. subst r email password.
  unfold AuthService.login, AuthService.userRepository_findOne, AuthService.respond,
    AuthService.getJwtToken.
  unfold_monad.
  destruct (Orm.find_user_by_email (Login.email dto) (durable w)) as [account|] eqn:Hfind;
    cbn.
  - destruct (compareSync (Login.password dto) (Orm.u_password account)) eqn:Hpw; cbn.
    + split; [discriminate |].
      split; [intros a Ha Hc; inv Ha; congruence |].
      split; [| reflexivity].
      intros a Ha _. inv Ha. eexists. repeat split.
    + split; [discriminate |].
      split; [reflexivity |].
      split; [| reflexivity].
      intros a Ha Hc. inv Ha. congruence.
  - split; [reflexivity |].
    split; [discriminate |].
    split; [discriminate | reflexivity].
Qed.

End Login.

(** The witness of C8 on the sample account: an unknown email, a wrong
    password and the right one. *)
Lemma login_outcomes_witness :
  let w := Sample.world_of Sample.db0 Sample.no_faults in
  outcome (AuthService.login (lib := Sample.lib)
             {| Login.email := "nobody@example.com"; Login.password := "secret1" |} w)
    = Throw (NotFoundException "User nobody@example.com not found") /\
  outcome (AuthService.login (lib := Sample.lib)
             {| Login.email := "ana@example.com"; Login.password := "wrong-password" |} w)
    = Throw (UnauthorizedException "Email or password incorrect") /\
  (exists response,
     outcome (AuthService.login (lib := Sample.lib)
                {| Login.email := "ana@example.com"; Login.password := "secret1" |} w)
       = Ok response /\
     UserEntity.password (AuthService.user response) = None /\
     AuthService.token response
       = "jwt.00000000-0000-4000-8000-0000000000a1.ana@example.com.0").
Proof.
  intros w.
  split; [| split].
  - apply (proj1 (@login_outcomes Sample.lib
                    {| Login.email := "nobody@example.com"; Login.password := "secret1" |} w)).
    reflexivity.
  - apply (proj1 (proj2 (@login_outcomes Sample.lib
                    {| Login.email := "ana@example.com";
                       Login.password := "wrong-password" |} w)) Sample.ana);
      reflexivity.
  - destruct (proj1 (proj2 (proj2 (@login_outcomes Sample.lib
                    {| Login.email := "ana@example.com"; Login.password := "secret1" |} w)))
                Sample.ana eq_refl eq_refl)
      as [response [Hout [_ [_ [Hpw Htoken]]]]].
    exists response. repeat split; assumption.
Defined.

(** ** Release of the connection (C9) *)

Section Release.
Context {lib : Externals}.

(** X21.  An update that returns the record has released its connection and
    left no transaction open. *)
Lemma returned_update_released :
  forall (id : string) (dto : UpdateStudent.UpdateStudentDto) (w : World)
         (student : StudentEntity.Student),
    let r := StudentsService.update id dto w in
    outcome r = Ok (Some student) ->
    In (Done Release) (calls r) /\
    connections (world r) = connections w /\
    transaction (world r) = None.
Proof.
  intros id dto w s r. subst r.
  remember (fun r : Run (option StudentEntity.Student) =>
              outcome r = Ok (Some s) ->
              In (Done Release) (calls r) /\
              connections (world r) = connections w /\
              transaction (world r) = None) as Q eqn:HQ.
  cut (Q (StudentsService.update id dto w)); [subst Q; auto |].
  run_update.
  all: try subst Q; cbn.
  all: intuition (try discriminate; try congruence; auto 12).
Qed.

(** X22.  Whenever the rollback call of an update fails, the update ends
    there: the failed rollback is the last call of the run, so the
    [release] that follows it in the [catch] block is not reached, and no
    call of [release] has completed in the run. *)
Lemma failed_rollback_never_releases :
  forall (id : string) (dto : UpdateStudent.UpdateStudentDto) (w : World),
    let r := StudentsService.update id dto w in
    In (Failed RollbackTransaction) (calls r) ->
    ~ In (Done Release) (calls r) /\
    last (calls r) (Done Connect) = Failed RollbackTransaction.
Proof.
  intros id dto w r. subst r.
  remember (fun r : Run (option StudentEntity.Student) =>
              In (Failed RollbackTransaction) (calls r) ->
              ~ In (Done Release) (calls r) /\
              last (calls r) (Done Connect) = Failed RollbackTransaction) as Q eqn:HQ.
  cut (Q (StudentsService.update id dto w)); [subst Q; auto |].
  run_update.
  all: try subst Q; cbn.
  all: intuition (try discriminate; try congruence).
Qed.

End Release.

(** C9 (the code departs from the claim).  The save of an update fails
    and then the rollback fails too: the [catch] block is left by the
    rollback's exception before it reaches [release], so the connection
    taken by [connect] stays taken. *)
Theorem failed_rollback_skips_release :
  let failing : Op -> option DriverError :=
    fun o => match o with
             | SaveInTransaction | RollbackTransaction => Some Sample.connection_lost
             | _ => None
             end in
  let w := Sample.world_of Sample.db0 failing in
  let r := StudentsService.update (lib := Sample.lib) Sample.juan_id
             (Sample.with_grades [Sample.science; Sample.art]) w in
  calls r = [Done Connect; Done StartTransaction; Done DeleteGrades;
             Failed SaveInTransaction; Failed RollbackTransaction] /\
  outcome r = Throw (QueryFailedError Sample.connection_lost) /\
  connections w = 0 /\
  connections (world r) = 1.
Proof. vm_compute. repeat split. Qed.

(** ** Replacement of the grade collection (C4) *)

Section Grades.
Context {lib : Externals}.
Import Conditions.




Lemma find_student_id : forall id db row,
    Orm.find_student id db = Some row -> Orm.s_id row = id.
Proof.
  intros id db row H. unfold Orm.find_student in H.
  apply find_some in H. destruct H as [_ H]. apply String.eqb_eq in H. exact H.
Qed.


(** After the delete, the record owns no grade row. *)
Lemma grades_of_delete : forall sid table,
    Orm.grades_of sid (Orm.delete_grades_of sid table) = [].
Proof.
  intros sid table. unfold Orm.grades_of, Orm.delete_grades_of.
  induction table as [|r rest IH]; cbn; [reflexivity |].
  destruct (Orm.owned_by sid r) eqn:Ho; cbn; [assumption |].
  rewrite Ho. assumption.
Qed.







End Grades.

Section Replace.
Context {lib : Externals}.
Import Conditions.






End Replace.

Section Committed.
Context {lib : Externals}.
Import Conditions.

(** The entity an update saves and the tables it saves it against: with
    a grades list, the loaded and merged record carrying the new grades,
    against the tables after the delete; without one, the loaded and
    merged record against the tables as they are. *)
Lemma update_committed :
  forall (id : string) (dto : UpdateStudent.UpdateStudentDto) (w : World)
         (s : StudentEntity.Student),
    outcome (StudentsService.update id dto w) = Ok (Some s) ->
    exists row e' db' n',
      isUUID id = true /\
      Orm.find_student id (durable w) = Some row /\
      (let student := StudentsService.merge (Orm.to_student (durable w) row) dto in
       match UpdateStudent.grades dto with
       | Some gs =>
           Orm.save_student uuid_generate_v4
             (StudentEntity.set_grade student
                (Some (map StudentsService.gradeRepository_create gs)))
             {| Orm.students := Orm.students (durable w);
                Orm.grades := Orm.delete_grades_of id (Orm.grades (durable w));
                Orm.users := Orm.users (durable w) |}
             (entropy w)
       | None => Orm.save_student uuid_generate_v4 student (durable w) (entropy w)
       end = Ok (e', db', n')) /\
      durable (world (StudentsService.update id dto w)) = db' /\
      outcome (StudentsService.findOne id (world (StudentsService.update id dto w))) = Ok s.
Proof.
  intros id dto w s.
  remember (fun r : Run (option StudentEntity.Student) =>
              outcome r = Ok (Some s) ->
              exists row e' db' n',
                isUUID id = true /\
                Orm.find_student id (durable w) = Some row /\
                (let student := StudentsService.merge (Orm.to_student (durable w) row) dto in
                 match UpdateStudent.grades dto with
                 | Some gs =>
                     Orm.save_student uuid_generate_v4
                       (StudentEntity.set_grade student
                          (Some (map StudentsService.gradeRepository_create gs)))
                       {| Orm.students := Orm.students (durable w);
                          Orm.grades := Orm.delete_grades_of id (Orm.grades (durable w));
                          Orm.users := Orm.users (durable w) |}
                       (entropy w)
                 | None => Orm.save_student uuid_generate_v4 student (durable w) (entropy w)
                 end = Ok (e', db', n')) /\
                durable (world r) = db' /\
                outcome (StudentsService.findOne id (world r)) = Ok s) as Q eqn:HQ.
  cut (Q (StudentsService.update id dto w)); [subst Q; auto |].
  unfold StudentsService.update, StudentsService.studentRepository_preload,
    StudentsService.handleException.
  unfold_runner. unfold_monad.
  destruct (isUUID id) eqn:Huuid; cbn; [| subst Q; cbn; discriminate].
  destruct (Orm.find_student id (durable w)) as [row|] eqn:Hfind; cbn;
    [| subst Q; cbn; discriminate].
  destruct (UpdateStudent.grades dto) as [gs|] eqn:Hgrades; cbn.
  all: run_cases.
  all: try (subst Q; cbn; discriminate).
  all: match goal with
       | H : StudentsService.findOne _ _ = _ |- _ =>
           destruct (findOne_run _ _ _ _ _ H); subst
       end.
  all: cbn; intros Hs; inv Hs.
  all: exists row; do 3 eexists.
  all: cbn.
  all: repeat split; try eassumption; try reflexivity.
  all: match goal with
       | H : StudentsService.findOne _ _ = _ |- _ => rewrite H; reflexivity
       end.
Qed.


End Committed.

Section ReplaceGrades.
Context {lib : Externals}.
Import Conditions.




End ReplaceGrades.



(** ** The seed endpoint (C10) *)

Section Seed.
Context {lib : Externals}.
Import Conditions.





End Seed.

Section SeedEndpoint.
Context {lib : Externals}.
Import Conditions.

(** The bulk delete leaves no student and no grade that has an owner. *)
Lemma deleteAllStudents_clears :
  forall w : World,
    faults w DeleteAllStudents = None ->
    let r := StudentsService.deleteAllStudents w in
    outcome r = Ok tt /\
    Orm.students (durable (world r)) = [] /\
    Forall (fun g => Orm.g_studentId g = None) (Orm.grades (durable (world r))).
Proof.
  intros w Hfault r. subst r.
  unfold StudentsService.deleteAllStudents, call. rewrite Hfault. cbn.
  repeat split.
  apply Forall_forall. intros g Hg. apply filter_In in Hg.
  destruct Hg as [_ Hg]. destruct (Orm.g_studentId g); [discriminate | reflexivity].
Qed.

(** The route that does declare guards turns away a request without a
    bearer token before the handler runs. *)
Lemma private_route_is_gated :
  forall (A : Type) (handler : Http.Request -> M A) (w : World),
    outcome (Router.dispatch AuthController.private_route handler
               {| Http.authorization := None; Http.user := None |} w)
    = Throw (UnauthorizedException "Unauthorized").
Proof. reflexivity. Qed.


End SeedEndpoint.


(* ================================================================== *)
(** * Further properties of the code *)

(** ** jwt.strategy.ts and the guarded route *)

Section Strategy.
Context {lib : Externals}.

(** X1.  [validate] turns away the payload of an account that is gone
    ("Token not valid") or deactivated ("User is not active"); otherwise
    it returns the stored account with its password removed.  It writes
    nothing. *)
Theorem validate_outcomes :
  forall (payload : JwtInterface.Jwt) (w : World),
    let r := JwtStrategy.validate payload w in
    let found := Orm.find_user_by_id (JwtInterface.id payload) (durable w) in
    (found = None ->
     outcome r = Throw (UnauthorizedException "Token not valid")) /\
    (forall account,
        found = Some account -> Orm.u_isActive account = false ->
        outcome r = Throw (UnauthorizedException "User is not active")) /\
    (forall account,
        found = Some account -> Orm.u_isActive account = true ->
        outcome r = Ok (UserEntity.delete_password (Orm.to_user account))) /\
    world r = w /\ calls r = [].
Proof.
  intros payload w r found. subst r found.
  unfold JwtStrategy.validate, JwtStrategy.userRepository_findOneBy.
  unfold_monad.
  destruct (Orm.find_user_by_id (JwtInterface.id payload) (durable w)) as [account|];
    cbn.
  - destruct (Orm.u_isActive account) eqn:Hactive; cbn.
    + split; [discriminate |].
      split; [intros a Ha Hf; inv Ha; congruence |].
      split; [intros a Ha _; inv Ha; reflexivity | auto].
    + split; [discriminate |].
      split; [reflexivity |].
      split; [intros a Ha Ht; inv Ha; congruence | auto].
  - split; [reflexivity |].
    split; [discriminate |].
    split; [discriminate | auto].
Qed.

Lemma substring_all : forall s : string, substring 0 (String.length s) s = s.
Proof.
  induction s as [|c s IH]; cbn; [reflexivity | rewrite IH; reflexivity].
Qed.

Lemma prefix_empty : forall s : string, prefix "" s = true.
Proof. destruct s; reflexivity. Qed.

Lemma after_nil : forall (A : Type) (r : Run A), after [] r = r.
Proof. intros A [o w c]. reflexivity. Qed.

(** The guard of a request that carries "Bearer <token>" for a token
    that verifies and an account that is stored and active: the request
    goes on with that account, its password removed, attached. *)
Lemma AuthGuard_passes :
  forall (req : Http.Request) (token : string) (payload : JwtInterface.Jwt)
         (account : Orm.UserRow) (w : World),
    Http.authorization req = Some ("Bearer " ++ token) ->
    verify token (clock w) = Some payload ->
    Orm.find_user_by_id (JwtInterface.id payload) (durable w) = Some account ->
    Orm.u_isActive account = true ->
    JwtStrategy.AuthGuard req w
    = {| outcome := Ok {| Http.authorization := Http.authorization req;
                          Http.user := Some (UserEntity.delete_password
                                               (Orm.to_user account)) |};
         world := w; calls := [] |}.
Proof.
  intros req token payload account w Hheader Hverify Hfind Hactive.
  unfold JwtStrategy.AuthGuard, Js.toLowerCase. rewrite Hheader. simpl.
  rewrite prefix_empty, Nat.sub_0_r, substring_all, Hverify.
  unfold JwtStrategy.validate, JwtStrategy.userRepository_findOneBy.
  unfold_monad. rewrite Hfind. cbn. rewrite Hactive. cbn. reflexivity.
Qed.

(** X2.  GET /auth/private declares the roles {admin, teacher}, yet every
    request with a verifiable bearer token of a stored, active account
    reaches the handler, whatever roles that account has (none
    included): the handler runs on the request with the account
    attached. *)
Theorem private_route_admits_any_active_account :
  forall (A : Type) (handler : Http.Request -> M A) (req : Http.Request)
         (token : string) (payload : JwtInterface.Jwt) (account : Orm.UserRow)
         (w : World),
    Http.authorization req = Some ("Bearer " ++ token) ->
    verify token (clock w) = Some payload ->
    Orm.find_user_by_id (JwtInterface.id payload) (durable w) = Some account ->
    Orm.u_isActive account = true ->
    Router.dispatch AuthController.private_route handler req w
    = handler {| Http.authorization := Http.authorization req;
                 Http.user := Some (UserEntity.delete_password (Orm.to_user account)) |}
              w.
Proof.
  intros A handler req token payload account w Hheader Hverify Hfind Hactive.
  unfold Router.dispatch, AuthController.private_route.
  cbn [Router.guards Router.run_guards Router.run_guard].
  unfold bind at 1. unfold bind at 1.
  rewrite (AuthGuard_passes req token payload account w Hheader Hverify Hfind Hactive).
  cbn. rewrite !after_nil. reflexivity.
Qed.

Lemma prefix_no_space :
  forall p t : string,
    prefix p t = true -> Conditions.no_space t = true -> Conditions.no_space p = true.
Proof.
  induction p as [|a p IH]; intros t Hp Ht; [reflexivity |].
  destruct t as [|b t]; [discriminate |].
  cbn [prefix] in Hp. destruct (ascii_dec a b) as [Hab | Hab]; [| discriminate].
  subst b. cbn [Conditions.no_space] in *.
  apply andb_true_iff in Ht. destruct Ht as [Ha Ht].
  rewrite Ha. exact (IH t Hp Ht).
Qed.

Lemma no_space_toLowerCase :
  forall s : string, Conditions.no_space (Js.toLowerCase s) = Conditions.no_space s.
Proof.
  unfold Js.toLowerCase. induction s as [|c s IH]; [reflexivity |].
  cbn [Js.map_chars Conditions.no_space]. rewrite IH.
  replace (Js.is_space (Js.lower_char c)) with (Js.is_space c); [reflexivity |].
  destruct c as [[] [] [] [] [] [] [] []]; reflexivity.
Qed.

Lemma toLowerCase_app :
  forall a b : string, Js.toLowerCase (a ++ b) = Js.toLowerCase a ++ Js.toLowerCase b.
Proof.
  unfold Js.toLowerCase. induction a as [|c a IH]; intros b; [reflexivity |].
  cbn. rewrite IH. reflexivity.
Qed.

Lemma prefix_first_word :
  forall p a b : string,
    Conditions.no_space p = true ->
    Conditions.no_space a = true ->
    prefix (p ++ " ") (a ++ " " ++ b) = true ->
    a = p.
Proof.
  induction p as [|x p IH]; intros a b Hp Ha Hpre.
  - destruct a as [|c a]; [reflexivity |].
    cbn [append prefix] in Hpre.
    destruct (ascii_dec " " c) as [Hc | Hc]; [| discriminate].
    subst c. cbn in Ha. discriminate.
  - cbn [Conditions.no_space] in Hp. apply andb_true_iff in Hp. destruct Hp as [Hx Hp].
    destruct a as [|c a].
    + cbn [append prefix] in Hpre.
      destruct (ascii_dec x " ") as [Hc | Hc]; [| discriminate].
      subst x. cbn in Hx. discriminate.
    + cbn [Conditions.no_space] in Ha. apply andb_true_iff in Ha. destruct Ha as [_ Ha].
      cbn [append prefix] in Hpre.
      destruct (ascii_dec x c) as [Hc | Hc]; [| discriminate].
      subst c. f_equal. exact (IH a b Hp Ha Hpre).
Qed.

Lemma substring_after_scheme :
  forall scheme token : string,
    String.length scheme = 6 ->
    substring 7 (String.length (scheme ++ " " ++ token) - 7) (scheme ++ " " ++ token)
    = token.
Proof.
  intros scheme token Hlen.
  do 6 (destruct scheme as [|? scheme]; [discriminate |]).
  destruct scheme; [| discriminate].
  cbn. rewrite Nat.sub_0_r. apply substring_all.
Qed.

Lemma length_toLowerCase :
  forall s : string, String.length (Js.toLowerCase s) = String.length s.
Proof.
  unfold Js.toLowerCase. induction s as [|c s IH]; cbn; [reflexivity | rewrite IH; reflexivity].
Qed.

(** X3.  A request to the guarded route is answered with
    UnauthorizedException, without the handler running and without any
    change, when it has no Authorization header, when the header is one
    word, or when it is a scheme and a token separated by one space and
    the scheme is not bearer (in either case) or the token does not
    verify.  (The header is ASCII and the two words have no white space
    in them: these are the headers on which the way the token is cut out
    here is the one of passport-jwt.) *)
Theorem private_route_rejects_unverified :
  forall (A : Type) (handler : Http.Request -> M A) (req : Http.Request) (w : World),
    match Http.authorization req with
    | None => True
    | Some header =>
        Conditions.is_ascii header = true /\
        (Conditions.no_space header = true \/
         exists scheme token,
           header = scheme ++ " " ++ token /\
           Conditions.no_space scheme = true /\
           Conditions.no_space token = true /\
           scheme <> "" /\
           token <> "" /\
           ((Js.toLowerCase scheme =? "bearer") = false \/
            verify token (clock w) = None))
    end ->
    Router.dispatch AuthController.private_route handler req w
    = {| outcome := Throw (UnauthorizedException "Unauthorized");
         world := w; calls := [] |}.
Proof.
  intros A handler req w H.
  unfold Router.dispatch, AuthController.private_route.
  cbn [Router.guards Router.run_guards Router.run_guard].
  unfold bind at 1. unfold bind at 1. unfold JwtStrategy.AuthGuard.
  destruct (Http.authorization req) as [header|]; [| reflexivity].
  destruct H as [_ H].
  destruct (prefix "bearer " (Js.toLowerCase header)) eqn:Hscheme; [| reflexivity].
  destruct H as [Hword | [scheme [token [Hheader [Hs [Ht [_ [_ H]]]]]]]].
  - apply prefix_no_space in Hscheme; [discriminate |].
    rewrite no_space_toLowerCase. exact Hword.
  - subst header. rewrite !toLowerCase_app in Hscheme.
    apply (prefix_first_word "bearer") in Hscheme;
      [| reflexivity | rewrite no_space_toLowerCase; exact Hs].
    destruct H as [H | H].
    + rewrite Hscheme in H. discriminate.
    + rewrite substring_after_scheme, H; [reflexivity |].
      rewrite <- length_toLowerCase, Hscheme. reflexivity.
Qed.

(** X4.  What [AuthGuard] lets pass, [GetUser] can read: after the guard the
    decorator returns an account, active and without its password. *)
Theorem GetUser_after_AuthGuard :
  forall (req req' : Http.Request) (roles : option (list string)) (w : World),
    outcome (JwtStrategy.AuthGuard req w) = Ok req' ->
    exists user,
      Decorators.GetUser {| Http.request := req'; Http.handler_roles := roles |} = Ok user /\
      UserEntity.password user = None /\
      UserEntity.isActive user = Some true.
Proof.
  intros req req' roles w H.
  unfold JwtStrategy.AuthGuard in H.
  destruct (Http.authorization req) as [header|]; [| discriminate].
  destruct (prefix "bearer " (Js.toLowerCase header)); [| discriminate].
  destruct (verify _ (clock w)) as [payload|]; [| discriminate].
  unfold JwtStrategy.validate, JwtStrategy.userRepository_findOneBy in H.
  unfold bind, after, ret, throw in H.
  destruct (Orm.find_user_by_id (JwtInterface.id payload) (durable w)) as [account|];
    cbn in H; [| discriminate].
  destruct (Orm.u_isActive account) eqn:Hactive; cbn in H; [| discriminate].
  inv H. eexists. unfold Decorators.GetUser. cbn.
  split; [reflexivity |]. split; [reflexivity |]. cbn. rewrite Hactive. reflexivity.
Qed.

End Strategy.

(** On the sample tables: the token of Ana, who is stored and active. *)
Lemma validate_outcomes_witness :
  let w := Sample.world_of Sample.db0 Sample.no_faults in
  outcome (JwtStrategy.validate
             {| JwtInterface.id := "00000000-0000-4000-8000-0000000000ff";
                JwtInterface.email := "ghost@example.com" |} w)
    = Throw (UnauthorizedException "Token not valid") /\
  outcome (JwtStrategy.validate
             {| JwtInterface.id := Orm.u_id Sample.ana;
                JwtInterface.email := "ana@example.com" |} w)
    = Ok (UserEntity.delete_password (Orm.to_user Sample.ana)).
Proof.
  intros w. split.
  - apply (proj1 (validate_outcomes
                    {| JwtInterface.id := "00000000-0000-4000-8000-0000000000ff";
                       JwtInterface.email := "ghost@example.com" |} w)).
    reflexivity.
  - apply (proj1 (proj2 (proj2 (validate_outcomes
                    {| JwtInterface.id := Orm.u_id Sample.ana;
                       JwtInterface.email := "ana@example.com" |} w))) Sample.ana);
      reflexivity.
Defined.

(** Ana, whose only role is teacher, and a handler that reports the
    roles of the caller. *)
Lemma private_route_admits_any_active_account_witness :
  let w := Sample.world_of Sample.db0 Sample.no_faults in
  let req :=
    {| Http.authorization :=
         Some "Bearer jwt.00000000-0000-4000-8000-0000000000a1.ana@example.com.0";
       Http.user := None |} in
  outcome (Router.dispatch (lib := Sample.lib) AuthController.private_route
             (fun req' => ret (option_map UserEntity.roles (Http.user req'))) req w)
  = Ok (Some (Some ["teacher"])).
Proof.
  intros w req.
  rewrite (@private_route_admits_any_active_account Sample.lib _ _ req
             "jwt.00000000-0000-4000-8000-0000000000a1.ana@example.com.0"
             {| JwtInterface.id := "00000000-0000-4000-8000-0000000000a1";
                JwtInterface.email := "ana@example.com" |}
             Sample.ana w eq_refl eq_refl eq_refl eq_refl).
  reflexivity.
Defined.

Lemma private_route_rejects_unverified_witness :
  let w := Sample.world_of Sample.db0 Sample.no_faults in
  outcome (Router.dispatch (lib := Sample.lib) AuthController.private_route
             (fun _ => ret "handler reached")
             {| Http.authorization := Some "Bearer forged-token"; Http.user := None |} w)
  = Throw (UnauthorizedException "Unauthorized") /\
  outcome (Router.dispatch (lib := Sample.lib) AuthController.private_route
             (fun _ => ret "handler reached")
             {| Http.authorization :=
                  Some "Basic jwt.00000000-0000-4000-8000-0000000000a1.ana@example.com.0";
                Http.user := None |} w)
  = Throw (UnauthorizedException "Unauthorized").
Proof.
  intros w. split.
  - rewrite (@private_route_rejects_unverified Sample.lib _ _
               {| Http.authorization := Some "Bearer forged-token"; Http.user := None |} w).
    + reflexivity.
    + split; [reflexivity |]. right. exists "Bearer", "forged-token".
      repeat split; try reflexivity; try discriminate. right. reflexivity.
  - rewrite (@private_route_rejects_unverified Sample.lib _ _
               {| Http.authorization :=
                    Some "Basic jwt.00000000-0000-4000-8000-0000000000a1.ana@example.com.0";
                  Http.user := None |} w).
    + reflexivity.
    + split; [reflexivity |]. right.
      exists "Basic", "jwt.00000000-0000-4000-8000-0000000000a1.ana@example.com.0".
      repeat split; try reflexivity; try discriminate. left. reflexivity.
Defined.

Lemma GetUser_after_AuthGuard_witness :
  let w := Sample.world_of Sample.db0 Sample.no_faults in
  let req :=
    {| Http.authorization :=
         Some "Bearer jwt.00000000-0000-4000-8000-0000000000a1.ana@example.com.0";
       Http.user := None |} in
  exists req' user,
    outcome (JwtStrategy.AuthGuard (lib := Sample.lib) req w) = Ok req' /\
    Decorators.GetUser {| Http.request := req'; Http.handler_roles := None |} = Ok user /\
    UserEntity.password user = None /\
    UserEntity.isActive user = Some true.
Proof.
  intros w req.
  assert (H : exists req', outcome (JwtStrategy.AuthGuard (lib := Sample.lib) req w) = Ok req')
    by (eexists; reflexivity).
  destruct H as [req' H].
  destruct (@GetUser_after_AuthGuard Sample.lib req req' None w H) as [user [Hu [Hp Ha]]].
  exists req', user. auto.
Defined.

(** ** role-protected.decorator.ts *)

(** X5.  The roles declared with [RoleProtected] are stored under the key
    'role-protected', while UserRoleGuard asks for the key 'roles': the
    guard's context is the one the handler would have without the
    decorator, so a handler protected only in this way has no roles for
    the guard, and even the guard as its comment documents it lets every
    request pass.  Roles set with [SetMetadata('roles', ...)] do reach
    the guard. *)
Theorem RoleProtected_is_not_read_by_the_guard :
  forall (args : list string) (target : Decorators.Metadata) (req : Http.Request),
    Decorators.context_of (Decorators.RoleProtected args target) req
      = Decorators.context_of target req /\
    UserRoleGuard.canActivate_documented
      (Decorators.context_of (Decorators.RoleProtected args []) req) = Ok true /\
    UserRoleGuard.reflector_get_roles
      (Decorators.context_of (Decorators.SetMetadata "roles" args target) req) = Some args /\
    Decorators.reflector_get "role-protected" (Decorators.RoleProtected args target)
      = Some args.
Proof.
  intros args target req. repeat split.
Qed.

(** ** auth.service.ts: registration *)

Section Registration.
Context {lib : Externals}.

Lemma find_appended :
  forall (A : Type) (key : A -> string) (k : string) (table : list A) (row : A),
    Orm.mem k (map key table) = false ->
    key row = k ->
    find (fun r => key r =? k) (table ++ [row]) = Some row.
Proof.
  intros A key k table row Hnew Hrow.
  induction table as [|r table IH]; cbn in *.
  - rewrite Hrow, String.eqb_refl. reflexivity.
  - apply orb_false_elim in Hnew. destruct Hnew as [Hr Hrest].
    rewrite String.eqb_sym, Hr. auto.
Qed.

(** X6.  A registration with an ASCII email that the store accepts (the
    normalised email is not taken, the generated id is new): the account
    is stored under the lower-cased, trimmed email with the bcrypt hash
    in place of the password, active and with the role teacher; the
    answer carries the account without any password and a token signed
    for its id and email.  The other tables are untouched.  (On an email
    with other than ASCII characters JavaScript lower-cases and trims
    more than [Js.toLowerCase] and [Js.trim] do; the statement is about
    ASCII emails.) *)
Theorem register_stores_a_normalised_account :
  forall (createUserDto : CreateUser.CreateUserDto) (w : World),
    let email := Js.trim (Js.toLowerCase (CreateUser.email createUserDto)) in
    let id := uuid_generate_v4 (S (entropy w)) in
    let r := AuthService.create createUserDto w in
    Conditions.is_ascii (CreateUser.email createUserDto) = true ->
    faults w SaveUser = None ->
    Orm.mem id (map Orm.u_id (Orm.users (durable w))) = false ->
    Orm.mem email (map Orm.u_email (Orm.users (durable w))) = false ->
    outcome r
    = Ok (Some {| AuthService.user :=
                    {| UserEntity.id := Some id;
                       UserEntity.email := email;
                       UserEntity.fullName := Some (CreateUser.fullName createUserDto);
                       UserEntity.password := None;
                       UserEntity.isActive := Some true;
                       UserEntity.roles := Some ["teacher"] |};
                  AuthService.token :=
                    sign {| JwtInterface.id := id; JwtInterface.email := email |}
                         (clock w) |}) /\
    Orm.users (durable (world r))
    = (Orm.users (durable w)
       ++ [ {| Orm.u_id := id; Orm.u_email := email;
               Orm.u_fullName := CreateUser.fullName createUserDto;
               Orm.u_password := hashSync (CreateUser.password createUserDto) 10 (entropy w);
               Orm.u_isActive := true; Orm.u_roles := ["teacher"] |} ])%list /\
    Orm.students (durable (world r)) = Orm.students (durable w) /\
    Orm.grades (durable (world r)) = Orm.grades (durable w) /\
    logged (world r) = logged w /\
    calls r = [Done SaveUser].
Proof.
  intros dto w email id r _ Hfault Hid Hemail. subst r email id.
  unfold AuthService.create, AuthService.encryptPassword, AuthService.userRepository_save,
    AuthService.respond, AuthService.getJwtToken, AuthService.userRepository_create.
  unfold_monad. cbn. rewrite Hfault.
  unfold Orm.save_user. unfold Js.trim, Js.toLowerCase in *. cbn.
  rewrite Hid, Hemail. cbn.
  repeat split; reflexivity.
Qed.

(** X7.  Registration with an ASCII email, followed by a login with the
    stored spelling of the email (lower case, trimmed) and the same
    password, succeeds, provided bcrypt accepts a password against its
    own hash.  The login answers with the id and
    the email only (the columns it selects) and a token for them. *)
Theorem register_then_login :
  forall (createUserDto : CreateUser.CreateUserDto) (w : World),
    let email := Js.trim (Js.toLowerCase (CreateUser.email createUserDto)) in
    let id := uuid_generate_v4 (S (entropy w)) in
    let password := CreateUser.password createUserDto in
    let registered := AuthService.create createUserDto w in
    let r := AuthService.login {| Login.email := email; Login.password := password |}
               (world registered) in
    Conditions.is_ascii (CreateUser.email createUserDto) = true ->
    faults w SaveUser = None ->
    Orm.mem id (map Orm.u_id (Orm.users (durable w))) = false ->
    Orm.mem email (map Orm.u_email (Orm.users (durable w))) = false ->
    compareSync password (hashSync password 10 (entropy w)) = true ->
    outcome r
    = Ok {| AuthService.user :=
              {| UserEntity.id := Some id;
                 UserEntity.email := email;
                 UserEntity.fullName := None;
                 UserEntity.password := None;
                 UserEntity.isActive := None;
                 UserEntity.roles := None |};
            AuthService.token :=
              sign {| JwtInterface.id := id; JwtInterface.email := email |} (clock w) |}.
Proof.
  intros dto w email id password registered r _ Hfault Hid Hemail Hhash.
  subst r registered.
  assert (Hrow : forall row, Orm.u_email row = email ->
                             find (fun r => Orm.u_email r =? email)
                                  (Orm.users (durable w) ++ [row]) = Some row)
    by (intros row; apply (find_appended Orm.UserRow Orm.u_email); exact Hemail).
  subst email id password.
  unfold AuthService.login, AuthService.userRepository_findOne, AuthService.respond,
    AuthService.getJwtToken.
  unfold AuthService.create, AuthService.encryptPassword, AuthService.userRepository_save,
    AuthService.respond, AuthService.getJwtToken, AuthService.userRepository_create.
  unfold_monad. cbn. rewrite Hfault.
  unfold Orm.save_user. unfold Js.trim, Js.toLowerCase in *. cbn.
  rewrite Hid, Hemail. cbn.
  unfold Orm.find_user_by_email. cbn.
  rewrite Hrow by reflexivity.
  cbn. rewrite Hhash. cbn. reflexivity.
Qed.

(** X8.  A registration whose INSERT fails: the error is logged and nothing
    is stored.  Only SQLSTATE 23505 reaches the caller, as
    InternalServerErrorException with the driver's detail line; after
    any other failure the method returns undefined, which the controller
    answers as a success without a body. *)
Theorem register_failure_outcomes :
  forall (createUserDto : CreateUser.CreateUserDto) (w : World) (err : DriverError),
    let r := AuthService.create createUserDto w in
    faults w SaveUser = Some err ->
    outcome r
    = (if match code err with
          | Some c => c =? "23505"
          | None => false
          end
       then Throw (InternalServerErrorException (detail err))
       else Ok None) /\
    durable (world r) = durable w /\
    logged (world r) = (logged w ++ [QueryFailedError err])%list /\
    calls r = [Failed SaveUser].
Proof.
  intros dto w err r Hfault. subst r.
  unfold AuthService.create, AuthService.encryptPassword, AuthService.userRepository_save,
    AuthService.handleException.
  unfold_monad. cbn. rewrite Hfault. cbn.
  destruct (code err) as [c|]; cbn; [destruct (c =? "23505"); cbn |]; auto.
Qed.

End Registration.

Lemma register_stores_a_normalised_account_witness :
  let w := Sample.world_of Sample.db0 Sample.no_faults in
  let r := AuthService.create (lib := Sample.lib)
             {| CreateUser.email := "  Luis@Example.COM "; CreateUser.fullName := "Luis Rey";
                CreateUser.password := "secret3" |} w in
  map Orm.u_email (Orm.users (durable (world r))) = ["ana@example.com"; "luis@example.com"] /\
  map Orm.u_password (Orm.users (durable (world r)))
  = ["$2b$10$7$secret1"; "$2b$10$0$secret3"] /\
  calls r = [Done SaveUser].
Proof.
  intros w r.
  destruct (@register_stores_a_normalised_account Sample.lib
              {| CreateUser.email := "  Luis@Example.COM "; CreateUser.fullName := "Luis Rey";
                 CreateUser.password := "secret3" |} w eq_refl eq_refl eq_refl eq_refl)
    as [_ [Husers [_ [_ [_ Hcalls]]]]].
  subst r. rewrite Husers. split; [reflexivity |]. split; [reflexivity | exact Hcalls].
Defined.

Lemma register_then_login_witness :
  let w := Sample.world_of Sample.db0 Sample.no_faults in
  let registered :=
    AuthService.create (lib := Sample.lib)
      {| CreateUser.email := "  Luis@Example.COM "; CreateUser.fullName := "Luis Rey";
         CreateUser.password := "secret3" |} w in
  exists response,
    outcome (AuthService.login (lib := Sample.lib)
               {| Login.email := "luis@example.com"; Login.password := "secret3" |}
               (world registered)) = Ok response /\
    AuthService.token response = "jwt.00000000-0000-4000-8000-000000000001.luis@example.com.0".
Proof.
  intros w registered. eexists. split.
  - exact (@register_then_login Sample.lib
             {| CreateUser.email := "  Luis@Example.COM "; CreateUser.fullName := "Luis Rey";
                CreateUser.password := "secret3" |} w
             eq_refl eq_refl eq_refl eq_refl eq_refl).
  - reflexivity.
Defined.

Lemma register_failure_outcomes_witness :
  let r := AuthService.create (lib := Sample.lib)
             {| CreateUser.email := "luis@example.com"; CreateUser.fullName := "Luis Rey";
                CreateUser.password := "secret3" |}
             (Sample.world_of Sample.db0 (Sample.fail_at SaveUser Sample.connection_lost)) in
  outcome r = Ok None /\
  durable (world r) = Sample.db0 /\
  logged (world r) = [QueryFailedError Sample.connection_lost] /\
  calls r = [Failed SaveUser].
Proof.
  intros r.
  exact (@register_failure_outcomes Sample.lib
           {| CreateUser.email := "luis@example.com"; CreateUser.fullName := "Luis Rey";
              CreateUser.password := "secret3" |}
           (Sample.world_of Sample.db0 (Sample.fail_at SaveUser Sample.connection_lost))
           Sample.connection_lost eq_refl).
Defined.

(** ** user.entity.ts and student.entity.ts: the listeners *)

Lemma lower_char_idem : forall c : ascii, Js.lower_char (Js.lower_char c) = Js.lower_char c.
Proof. intros [[] [] [] [] [] [] [] []]; reflexivity. Qed.

Lemma is_space_lower : forall c : ascii, Js.is_space (Js.lower_char c) = Js.is_space c.
Proof. intros [[] [] [] [] [] [] [] []]; reflexivity. Qed.

Lemma toLowerCase_idem : forall s : string, Js.toLowerCase (Js.toLowerCase s) = Js.toLowerCase s.
Proof.
  unfold Js.toLowerCase. induction s as [|c s IH]; cbn [Js.map_chars];
    [reflexivity | rewrite lower_char_idem, IH; reflexivity].
Qed.

Lemma map_chars_empty : forall (f : ascii -> ascii) (s : string),
    (Js.map_chars f s =? "") = (s =? "").
Proof. intros f [|c s]; reflexivity. Qed.

Lemma toLowerCase_trimStart : forall s : string,
    Js.toLowerCase (Js.trimStart s) = Js.trimStart (Js.toLowerCase s).
Proof.
  unfold Js.toLowerCase. induction s as [|c s IH]; [reflexivity |].
  cbn [Js.trimStart Js.map_chars]. rewrite is_space_lower.
  destruct (Js.is_space c); [exact IH | reflexivity].
Qed.

Lemma toLowerCase_trimEnd : forall s : string,
    Js.toLowerCase (Js.trimEnd s) = Js.trimEnd (Js.toLowerCase s).
Proof.
  unfold Js.toLowerCase. induction s as [|c s IH]; [reflexivity |].
  cbn [Js.trimEnd Js.map_chars]. rewrite is_space_lower, <- IH, map_chars_empty.
  destruct (Js.is_space c && (Js.trimEnd s =? "")); reflexivity.
Qed.

Lemma trimEnd_idem : forall s : string, Js.trimEnd (Js.trimEnd s) = Js.trimEnd s.
Proof.
  induction s as [|c s IH]; [reflexivity |].
  cbn [Js.trimEnd].
  destruct (Js.is_space c && (Js.trimEnd s =? "")) eqn:Hdrop; [reflexivity |].
  cbn [Js.trimEnd]. rewrite IH, Hdrop. reflexivity.
Qed.

Lemma trimStart_trimEnd : forall s : string,
    Js.trimStart (Js.trimEnd (Js.trimStart s)) = Js.trimEnd (Js.trimStart s).
Proof.
  induction s as [|c s IH]; [reflexivity |].
  cbn [Js.trimStart]. destruct (Js.is_space c) eqn:Hspace; [exact IH |].
  cbn [Js.trimEnd]. rewrite Hspace. cbn [andb Js.trimStart]. rewrite Hspace. reflexivity.
Qed.

Lemma trim_idem : forall s : string, Js.trim (Js.trim s) = Js.trim s.
Proof.
  intros s. unfold Js.trim. rewrite trimStart_trimEnd, trimEnd_idem. reflexivity.
Qed.

Lemma is_ascii_toLowerCase :
  forall s : string, Conditions.is_ascii (Js.toLowerCase s) = Conditions.is_ascii s.
Proof.
  unfold Js.toLowerCase. induction s as [|c s IH]; [reflexivity |].
  cbn [Js.map_chars Conditions.is_ascii]. rewrite IH. f_equal.
  destruct c as [[] [] [] [] [] [] [] []]; reflexivity.
Qed.

Lemma is_ascii_trimStart :
  forall s : string,
    Conditions.is_ascii s = true -> Conditions.is_ascii (Js.trimStart s) = true.
Proof.
  induction s as [|c s IH]; intros H; [reflexivity |].
  cbn [Js.trimStart]. destruct (Js.is_space c); [| exact H].
  cbn [Conditions.is_ascii] in H. apply andb_true_iff in H. apply IH. tauto.
Qed.

Lemma is_ascii_trimEnd :
  forall s : string,
    Conditions.is_ascii s = true -> Conditions.is_ascii (Js.trimEnd s) = true.
Proof.
  induction s as [|c s IH]; intros H; [reflexivity |].
  cbn [Conditions.is_ascii] in H. apply andb_true_iff in H. destruct H as [Hc Hs].
  cbn [Js.trimEnd]. destruct (Js.is_space c && (Js.trimEnd s =? "")); [reflexivity |].
  cbn [Conditions.is_ascii]. rewrite Hc, (IH Hs). reflexivity.
Qed.

(** X9.  On an account with an ASCII email, the listener that normalises
    the email before an INSERT or UPDATE is idempotent: the email it
    leaves is ASCII again, a fixed point of lower-casing and of trimming,
    and the account is left as it is by a later run of the listener.
    (ASCII emails are those on which [Js.toLowerCase] and [Js.trim] are
    the functions of JavaScript.) *)
Theorem checkFieldsBeforeChanges_idempotent :
  forall user : UserEntity.User,
    let saved := UserEntity.checkFieldsBeforeChanges user in
    Conditions.is_ascii (UserEntity.email user) = true ->
    Conditions.is_ascii (UserEntity.email saved) = true /\
    UserEntity.checkFieldsBeforeChanges saved = saved /\
    Js.toLowerCase (UserEntity.email saved) = UserEntity.email saved /\
    Js.trim (UserEntity.email saved) = UserEntity.email saved.
Proof.
  intros user saved Hascii. subst saved. unfold UserEntity.checkFieldsBeforeChanges.
  cbn [UserEntity.email UserEntity.set_email].
  assert (Hlower : Js.toLowerCase (Js.trim (Js.toLowerCase (UserEntity.email user)))
                   = Js.trim (Js.toLowerCase (UserEntity.email user))).
  { unfold Js.trim.
    rewrite toLowerCase_trimEnd, toLowerCase_trimStart, toLowerCase_idem. reflexivity. }
  split; [| split; [| split]].
  - unfold Js.trim. apply is_ascii_trimEnd, is_ascii_trimStart.
    rewrite is_ascii_toLowerCase. exact Hascii.
  - unfold UserEntity.set_email. cbn. rewrite Hlower, trim_idem. reflexivity.
  - exact Hlower.
  - apply trim_idem.
Qed.

Lemma checkFieldsBeforeChanges_idempotent_witness :
  let saved :=
    UserEntity.checkFieldsBeforeChanges
      {| UserEntity.id := None; UserEntity.email := "  Luis@Example.COM ";
         UserEntity.fullName := Some "Luis Rey"; UserEntity.password := Some "hash";
         UserEntity.isActive := None; UserEntity.roles := None |} in
  UserEntity.email saved = "luis@example.com" /\
  UserEntity.checkFieldsBeforeChanges saved = saved.
Proof.
  intros saved. split; [reflexivity |].
  exact (proj1 (proj2 (checkFieldsBeforeChanges_idempotent
                         {| UserEntity.id := None; UserEntity.email := "  Luis@Example.COM ";
                            UserEntity.fullName := Some "Luis Rey";
                            UserEntity.password := Some "hash";
                            UserEntity.isActive := None; UserEntity.roles := None |}
                         eq_refl))).
Defined.

(** ** students.service.ts: create and findOne *)

Section Students.
Context {lib : Externals}.
Import Conditions.


(** X12.  A student whose email is already stored, spelled the same way, is
    refused: the answer is InternalServerErrorException carrying the
    driver's detail line, and no row is written.  (Unlike the email of
    an account, the email of a student is compared as it was sent.) *)
Theorem create_duplicate_email :
  forall (createStudentDto : CreateStudent.CreateStudentDto) (w : World),
    let r := StudentsService.create createStudentDto w in
    let email := CreateStudent.email createStudentDto in
    faults w SaveStudent = None ->
    Orm.mem (uuid_generate_v4 (entropy w)) (map Orm.s_id (Orm.students (durable w))) = false ->
    Orm.email_taken email None (Orm.students (durable w)) = true ->
    outcome r
    = Throw (InternalServerErrorException
               (Some ("Key (email)=(" ++ email ++ ") already exists."))) /\
    durable (world r) = durable w /\
    calls r = [Failed SaveStudent].
Proof.
  intros dto w r email Hfault Hid Htaken. subst r email.
  unfold StudentsService.create, StudentsService.studentRepository_save,
    StudentsService.handleException, StudentsService.studentRepository_create.
  unfold_monad. rewrite Hfault.
  unfold Orm.save_student. cbn. rewrite Hid, Htaken. cbn. auto.
Qed.

Lemma findOne_uuid :
  forall (id : string) (w : World),
    isUUID id = true ->
    outcome (StudentsService.findOne id w)
    = match Orm.find_student id (durable w) with
      | Some row => Ok (Orm.to_student (durable w) row)
      | None => Throw (NotFoundException ("Student with " ++ id ++ " not found"))
      end.
Proof.
  intros id w Huuid.
  unfold StudentsService.findOne, StudentsService.studentRepository_findOneBy.
  unfold_monad. rewrite !Huuid.
  destruct (Orm.find_student id (durable w)); reflexivity.
Qed.

Lemma findOne_found :
  forall (term : string) (w : World) (student : StudentEntity.Student),
    outcome (StudentsService.findOne term w) = Ok student ->
    exists row,
      In row (Orm.students (durable w)) /\
      student = Orm.to_student (durable w) row.
Proof.
  intros term w student.
  unfold StudentsService.findOne, StudentsService.studentRepository_findOneBy,
    StudentsService.queryBuilder_getOne, Orm.find_student.
  unfold_monad.
  destruct (isUUID term) eqn:Huuid; [rewrite ?Huuid |].
  - destruct (find _ (Orm.students (durable w))) as [row|] eqn:Hfind; cbn;
      intros H; inv H.
    exists row. split; [apply (find_some _ _ Hfind) | reflexivity].
  - destruct (find _ (Orm.students (durable w))) as [row|] eqn:Hfind; cbn;
      intros H; inv H.
    exists row. split; [apply (find_some _ _ Hfind) | reflexivity].
Qed.

(** X14.  A term that is not a UUID is looked up as a name, letter case
    ignored, or as a nickname, lower-cased first: when a stored student
    matches, a matching student is returned with its grades; when none
    does, the answer is NotFoundException naming the term.  (The term and
    the stored names are ASCII: on these [Js.toUpperCase] is both the
    [toUpperCase] of JavaScript and the [UPPER] of the store.) *)
Theorem findOne_by_name_or_nickname :
  forall (term : string) (w : World),
    let r := StudentsService.findOne term w in
    let matches := fun row : Orm.StudentRow =>
                     (Js.toUpperCase (Orm.s_name row) =? Js.toUpperCase term)
                     || (Orm.s_nickname row =? Js.toLowerCase term) in
    isUUID term = false ->
    is_ascii term = true ->
    forallb (fun row => is_ascii (Orm.s_name row)) (Orm.students (durable w)) = true ->
    (existsb matches (Orm.students (durable w)) = true ->
     exists row,
       In row (Orm.students (durable w)) /\
       matches row = true /\
       outcome r = Ok (Orm.to_student (durable w) row)) /\
    (existsb matches (Orm.students (durable w)) = false ->
     outcome r = Throw (NotFoundException ("Student with " ++ term ++ " not found"))).
Proof.
  intros term w r matches Huuid _ _. subst r.
  unfold StudentsService.findOne, StudentsService.queryBuilder_getOne.
  unfold_monad. rewrite Huuid.
  fold matches.
  destruct (find matches (Orm.students (durable w))) as [row|] eqn:Hfind; cbn.
  - apply find_some in Hfind. destruct Hfind as [Hin Hrow]. split.
    + intros _. exists row. auto.
    + intros Hnone.
      assert (Hsome : existsb matches (Orm.students (durable w)) = true)
        by (apply existsb_exists; exists row; auto).
      congruence.
  - split; [| reflexivity].
    intros Hsome. apply existsb_exists in Hsome. destruct Hsome as [row [Hin Hrow]].
    rewrite (find_none _ _ Hfind row Hin) in Hrow. discriminate.
Qed.


End Students.

(** ** students.service.ts: update *)

Section Update.
Context {lib : Externals}.
Import Conditions.

(** X15.  An update of a student that does not exist, asked for under
    an id written as the store writes ids (a UUID in lower case), is
    answered with NotFoundException before a connection is taken:
    nothing is written, nothing is logged and no persistence call is
    made. *)
Theorem update_unknown_student :
  forall (id : string) (updateStudentDto : UpdateStudent.UpdateStudentDto) (w : World),
    let r := StudentsService.update id updateStudentDto w in
    canonical_id id = true ->
    Orm.find_student id (durable w) = None ->
    r = {| outcome := Throw (NotFoundException ("Student with id " ++ id ++ " not found"));
           world := w; calls := [] |}.
Proof.
  intros id dto w r Hid Hfind. subst r.
  unfold canonical_id in Hid. apply andb_true_iff in Hid. destruct Hid as [Huuid _].
  unfold StudentsService.update, StudentsService.studentRepository_preload.
  unfold_monad. rewrite Huuid, Hfind. reflexivity.
Qed.

(** X16.  The connection is taken and the transaction begun before the
    [try] block: when BEGIN fails, the error leaves the method as it is,
    unlogged, and the method ends without a call of [release] (the run
    is the connect and the failed BEGIN, nothing else); the tables are as
    they were. *)
Theorem update_begin_failure_skips_release :
  forall (id : string) (updateStudentDto : UpdateStudent.UpdateStudentDto) (w : World)
         (row : Orm.StudentRow) (err : DriverError),
    let r := StudentsService.update id updateStudentDto w in
    isUUID id = true ->
    Orm.find_student id (durable w) = Some row ->
    faults w Connect = None ->
    faults w StartTransaction = Some err ->
    outcome r = Throw (QueryFailedError err) /\
    calls r = [Done Connect; Failed StartTransaction] /\
    ~ In (Done Release) (calls r) /\
    ~ In (Failed Release) (calls r) /\
    durable (world r) = durable w /\
    logged (world r) = logged w.
Proof.
  intros id dto w row err r Huuid Hfind Hconnect Hbegin. subst r.
  unfold StudentsService.update, StudentsService.studentRepository_preload.
  unfold_runner. unfold_monad.
  rewrite Huuid, Hfind. cbn. rewrite Hconnect. cbn. rewrite Hbegin. cbn.
  repeat split; try reflexivity; intros [H | [H | []]]; discriminate.
Qed.

(** X17.  The committed tables change only through a COMMIT: an update whose
    run has no successful commit leaves every table as it was. *)
Theorem update_writes_only_by_commit :
  forall (id : string) (updateStudentDto : UpdateStudent.UpdateStudentDto) (w : World),
    let r := StudentsService.update id updateStudentDto w in
    In (Done CommitTransaction) (calls r) \/ durable (world r) = durable w.
Proof.
  intros id dto w r. subst r.
  remember (fun r : Run (option StudentEntity.Student) =>
              In (Done CommitTransaction) (calls r) \/ durable (world r) = durable w)
    as Q eqn:HQ.
  cut (Q (StudentsService.update id dto w)); [subst Q; auto |].
  run_update.
  all: try subst Q; cbn.
  all: intuition (try discriminate; try congruence; auto 12).
Qed.

Lemma save_student_email_taken :
  forall (e : StudentEntity.Student) (db : Orm.Database) (n : nat)
         (row : Orm.StudentRow) (nick : string),
    StudentEntity.id e = Some (Orm.s_id row) ->
    Orm.find_student (Orm.s_id row) db = Some row ->
    StudentEntity.nickname e = Some nick ->
    Orm.email_taken (StudentEntity.email e) (Some (Orm.s_id row)) (Orm.students db) = true ->
    Orm.save_student uuid_generate_v4 e db n
    = Throw (QueryFailedError (unique_violation "email" (StudentEntity.email e))).
Proof.
  intros e db n row nick Hid Hfind Hnick Htaken.
  unfold Orm.save_student. rewrite Hid, Hfind.
  unfold StudentEntity.checkNicknameUpdate. rewrite Hnick.
  destruct (Orm.columns_differ e row); cbn; rewrite Htaken; reflexivity.
Qed.

(** X18.  An update that sets the email to one another student already has:
    the transaction is rolled back, the connection released, the tables
    are as before, and the caller receives InternalServerErrorException
    with the driver's detail line. *)
Theorem update_duplicate_email :
  forall (id : string) (updateStudentDto : UpdateStudent.UpdateStudentDto) (w : World)
         (row : Orm.StudentRow) (email : string),
    let r := StudentsService.update id updateStudentDto w in
    (forall o, faults w o = None) ->
    isUUID id = true ->
    Orm.find_student id (durable w) = Some row ->
    UpdateStudent.email updateStudentDto = Some email ->
    Orm.email_taken email (Some id) (Orm.students (durable w)) = true ->
    outcome r
    = Throw (InternalServerErrorException
               (Some ("Key (email)=(" ++ email ++ ") already exists."))) /\
    durable (world r) = durable w /\
    transaction (world r) = None /\
    connections (world r) = connections w /\
    In (Done RollbackTransaction) (calls r) /\
    In (Done Release) (calls r).
Proof.
  intros id dto w row email r Hfaults Huuid Hfind Hemail Htaken. subst r.
  pose proof (find_student_id _ _ _ Hfind) as Hrow.
  assert (Hsave : forall e db n,
             StudentEntity.id e = Some id ->
             StudentEntity.nickname e = Some (Orm.s_nickname row) ->
             StudentEntity.email e = email ->
             Orm.students db = Orm.students (durable w) ->
             Orm.save_student uuid_generate_v4 e db n
             = Throw (QueryFailedError (unique_violation "email" email))).
  { intros e db n Hid Hnick Hmail Hdb.
    rewrite (save_student_email_taken e db n row (Orm.s_nickname row)).
    - rewrite Hmail. reflexivity.
    - rewrite Hrow. exact Hid.
    - unfold Orm.find_student in *. rewrite Hdb, Hrow. exact Hfind.
    - exact Hnick.
    - rewrite Hmail, Hdb, Hrow. exact Htaken. }
  unfold StudentsService.update, StudentsService.studentRepository_preload,
    StudentsService.handleException.
  unfold_runner. unfold_monad.
  rewrite Huuid, Hfind. cbn [option_map].
  remember (StudentsService.merge (Orm.to_student (durable w) row) dto) as merged
    eqn:Hmerged.
  assert (Hid : StudentEntity.id merged = Some id)
    by (subst merged; cbn; rewrite Hrow; reflexivity).
  assert (Hnick : StudentEntity.nickname merged = Some (Orm.s_nickname row))
    by (subst merged; reflexivity).
  assert (Hmail : StudentEntity.email merged = email)
    by (subst merged; cbn; rewrite Hemail; reflexivity).
  clear Hmerged.
  destruct (UpdateStudent.grades dto) as [gs|];
    repeat (progress (cbn; rewrite ?Hfaults; rewrite ?Hsave by (cbn; auto)));
    repeat split; auto 10.
Qed.

Lemma find_replaced :
  forall (id : string) (row' : Orm.StudentRow) (table : list Orm.StudentRow)
         (row : Orm.StudentRow),
    Orm.s_id row' = id ->
    find (fun r => Orm.s_id r =? id) table = Some row ->
    find (fun r => Orm.s_id r =? id)
         (map (fun r => if Orm.s_id r =? id then row' else r) table) = Some row'.
Proof.
  intros id row' table row Hid. induction table as [|r table IH]; cbn; [discriminate |].
  destruct (Orm.s_id r =? id) eqn:Hr; cbn.
  - intros _. rewrite Hid, String.eqb_refl. reflexivity.
  - rewrite Hr. exact IH.
Qed.

Lemma save_student_update_row :
  forall (e : StudentEntity.Student) (db : Orm.Database) (n : nat) (row : Orm.StudentRow)
         (e' : StudentEntity.Student) (db' : Orm.Database) (n' : nat),
    StudentEntity.id e = Some (Orm.s_id row) ->
    Orm.find_student (Orm.s_id row) db = Some row ->
    Orm.save_student uuid_generate_v4 e db n = Ok (e', db', n') ->
    exists nick,
      Orm.students db'
      = map (fun r => if Orm.s_id r =? Orm.s_id row
                      then {| Orm.s_id := Orm.s_id row;
                              Orm.s_name := StudentEntity.name e;
                              Orm.s_age := Orm.age_to_column (StudentEntity.age e)
                                                            (Orm.s_age row);
                              Orm.s_email := StudentEntity.email e;
                              Orm.s_nickname := nick;
                              Orm.s_gender := StudentEntity.gender e;
                              Orm.s_subjects := StudentEntity.subjects e |}
                      else r) (Orm.students db) /\
      Orm.users db' = Orm.users db.
Proof.
  intros e db n row e' db' n' Hid Hfind.
  unfold Orm.save_student. rewrite Hid, Hfind.
  assert (Hhook : forall e1,
             (if Orm.columns_differ e row
              then StudentEntity.checkNicknameUpdate e else Ok e) = Ok e1 ->
             StudentEntity.name e1 = StudentEntity.name e /\
             StudentEntity.age e1 = StudentEntity.age e /\
             StudentEntity.email e1 = StudentEntity.email e /\
             StudentEntity.gender e1 = StudentEntity.gender e /\
             StudentEntity.subjects e1 = StudentEntity.subjects e).
  { intros e1. destruct (Orm.columns_differ e row).
    - unfold StudentEntity.checkNicknameUpdate.
      destruct (StudentEntity.nickname e); intros H; inv H. cbn. auto.
    - intros H; inv H. auto. }
  destruct (if Orm.columns_differ e row
            then StudentEntity.checkNicknameUpdate e else Ok e) as [e1|x];
    [| discriminate].
  destruct (Hhook e1 eq_refl) as [Hname [Hage [Hemail [Hgender Hsubjects]]]].
  rewrite Hname, Hage, Hemail, Hgender, Hsubjects.
  destruct (Orm.email_taken _ _ _); [discriminate |].
  unfold Orm.save_grades.
  destruct (StudentEntity.grade e1) as [gs|].
  - destruct (Orm.cascade_grades _ _ _ _ _) as [err | [[gs' table'] n1]];
      intros H; inv H.
    eexists. split; reflexivity.
  - intros H; inv H. eexists. split; reflexivity.
Qed.

(** X19.  What a successful update stores and returns: for every property of
    the request, the value sent, and for every property left out, the
    value the student had.  The accounts and the rows of the other
    students are not touched. *)
Theorem update_stores_the_given_fields :
  forall (id : string) (updateStudentDto : UpdateStudent.UpdateStudentDto) (w : World)
         (student : StudentEntity.Student),
    let r := StudentsService.update id updateStudentDto w in
    outcome r = Ok (Some student) ->
    exists row,
      Orm.find_student id (durable w) = Some row /\
      StudentEntity.id student = Some id /\
      StudentEntity.name student
      = match UpdateStudent.name updateStudentDto with
        | Some name => name
        | None => Orm.s_name row
        end /\
      StudentEntity.age student
      = match UpdateStudent.age updateStudentDto with
        | Some age => Js.value age
        | None => Orm.age_of_column (Orm.s_age row)
        end /\
      StudentEntity.email student
      = match UpdateStudent.email updateStudentDto with
        | Some email => email
        | None => Orm.s_email row
        end /\
      StudentEntity.gender student
      = match UpdateStudent.gender updateStudentDto with
        | Some gender => gender
        | None => Orm.s_gender row
        end /\
      StudentEntity.subjects student
      = match UpdateStudent.subjects updateStudentDto with
        | Some subjects => subjects
        | None => Orm.s_subjects row
        end /\
      Orm.users (durable (world r)) = Orm.users (durable w) /\
      (forall other,
          In other (Orm.students (durable w)) ->
          Orm.s_id other <> id ->
          In other (Orm.students (durable (world r)))).
Proof.
  intros id dto w student r Hok. subst r.
  destruct (update_committed id dto w student Hok)
    as [row [e' [db' [n' [Huuid [Hfind [Hsave [Hdurable Hfound]]]]]]]].
  pose proof (find_student_id _ _ _ Hfind) as Hrow.
  exists row. split; [exact Hfind |].
  assert (Hrows : exists nick e,
             e = StudentsService.merge (Orm.to_student (durable w) row) dto /\
             Orm.students db'
             = map (fun r => if Orm.s_id r =? id
                             then {| Orm.s_id := id;
                                     Orm.s_name := StudentEntity.name e;
                                     Orm.s_age := Orm.age_to_column (StudentEntity.age e)
                                                                   (Orm.s_age row);
                                     Orm.s_email := StudentEntity.email e;
                                     Orm.s_nickname := nick;
                                     Orm.s_gender := StudentEntity.gender e;
                                     Orm.s_subjects := StudentEntity.subjects e |}
                             else r) (Orm.students (durable w)) /\
             Orm.users db' = Orm.users (durable w)).
  { cbv zeta in Hsave. destruct (UpdateStudent.grades dto) as [gs|].
    - apply save_student_update_row with (row := row) in Hsave.
      + destruct Hsave as [nick [Hs Hu]]. rewrite Hrow in Hs.
        exists nick. eexists. split; [reflexivity |]. split; [exact Hs | exact Hu].
      + cbn. rewrite Hrow. reflexivity.
      + rewrite Hrow. exact Hfind.
    - apply save_student_update_row with (row := row) in Hsave.
      + destruct Hsave as [nick [Hs Hu]]. rewrite Hrow in Hs.
        exists nick. eexists. split; [reflexivity |]. split; [exact Hs | exact Hu].
      + cbn. rewrite Hrow. reflexivity.
      + rewrite Hrow. exact Hfind. }
  destruct Hrows as [nick [e [He [Hstudents Husers]]]].
  rewrite (findOne_uuid id _ Huuid), Hdurable in Hfound.
  unfold Orm.find_student in Hfound, Hfind. rewrite Hstudents in Hfound.
  erewrite find_replaced in Hfound; [| reflexivity | exact Hfind].
  injection Hfound as Hstudent. subst student e. cbn.
  split; [reflexivity |].
  split; [destruct (UpdateStudent.name dto); reflexivity |].
  split; [destruct (UpdateStudent.age dto); [reflexivity |];
          destruct (Orm.s_age row); reflexivity |].
  split; [destruct (UpdateStudent.email dto); reflexivity |].
  split; [destruct (UpdateStudent.gender dto); reflexivity |].
  split; [destruct (UpdateStudent.subjects dto); reflexivity |].
  split; [rewrite Hdurable; exact Husers |].
  intros other Hin Hother. rewrite Hdurable, Hstudents.
  apply in_map_iff. exists other. split; [| exact Hin].
  destruct (Orm.s_id other =? id) eqn:Heq; [| reflexivity].
  apply String.eqb_eq in Heq. contradiction.
Qed.

End Update.

(** ** students.service.ts: remove *)

Section Remove.
Context {lib : Externals}.

Lemma find_filtered_out :
  forall (id : string) (table : list Orm.StudentRow),
    find (fun r => Orm.s_id r =? id)
         (filter (fun r => negb (Orm.s_id r =? id)) table) = None.
Proof.
  intros id table. induction table as [|r table IH]; cbn; [reflexivity |].
  destruct (Orm.s_id r =? id) eqn:Hr; cbn; [exact IH | rewrite Hr; exact IH].
Qed.

Lemma remove_run :
  forall (term : string) (w : World),
    StudentsService.remove term w
    = match outcome (StudentsService.findOne term w) with
      | Ok student => StudentsService.studentRepository_remove student w
      | Throw error => {| outcome := Throw error; world := w; calls := [] |}
      end.
Proof.
  intros term w. unfold StudentsService.remove, bind.
  destruct (StudentsService.findOne term w) as [o w' c] eqn:Hrun.
  apply findOne_run in Hrun. destruct Hrun as [Hw Hc]. subst w' c.
  destruct o; cbn; [apply after_nil | reflexivity].
Qed.

(** X23.  [remove] deletes the student that [findOne] finds for the term (an
    id, or a name or nickname: the route does not ask for a UUID)
    together with the grades that student owns, and nothing else: the
    other students, the grades of others and the accounts stay.  When
    [findOne] throws, [remove] throws the same and changes nothing.  (The
    term is one on which the lookup here is the one of the store: an id
    in the store's spelling, or ASCII text among ASCII names.) *)
Theorem remove_deletes_student_and_grades :
  forall (term : string) (w : World),
    let r := StudentsService.remove term w in
    Conditions.plain_term term (durable w) = true ->
    match outcome (StudentsService.findOne term w) with
    | Throw error => r = {| outcome := Throw error; world := w; calls := [] |}
    | Ok student =>
        exists id,
          StudentEntity.id student = Some id /\
          outcome r = Ok tt /\
          Orm.find_student id (durable (world r)) = None /\
          Orm.grades_of id (Orm.grades (durable (world r))) = [] /\
          (forall other,
              In other (Orm.students (durable w)) ->
              Orm.s_id other <> id ->
              In other (Orm.students (durable (world r)))) /\
          (forall g,
              In g (Orm.grades (durable w)) ->
              Orm.owned_by id g = false ->
              In g (Orm.grades (durable (world r)))) /\
          Orm.users (durable (world r)) = Orm.users (durable w)
    end.
Proof.
  intros term w r _. subst r.
  pose proof (findOne_found term w) as Hfound.
  rewrite remove_run.
  destruct (outcome (StudentsService.findOne term w)) as [student | error];
    [| reflexivity].
  destruct (Hfound student eq_refl) as [row [_ Hstudent]]. subst student.
  exists (Orm.s_id row). unfold StudentsService.studentRepository_remove, ret. cbn.
  split; [reflexivity |]. split; [reflexivity |].
  split; [apply find_filtered_out |].
  split; [apply grades_of_delete |].
  split; [| split; [| reflexivity]].
  - intros other Hin Hother. apply filter_In. split; [exact Hin |].
    apply negb_true_iff. apply String.eqb_neq. exact Hother.
  - intros g Hin Hg. apply filter_In. split; [exact Hin |].
    rewrite Hg. reflexivity.
Qed.

(** X24.  After a student was removed by id, a search for that id is answered
    with NotFoundException. *)
Theorem remove_then_findOne :
  forall (id : string) (w : World),
    let r := StudentsService.remove id w in
    isUUID id = true ->
    outcome r = Ok tt ->
    outcome (StudentsService.findOne id (world r))
    = Throw (NotFoundException ("Student with " ++ id ++ " not found")).
Proof.
  intros id w r Huuid. subst r.
  pose proof (findOne_uuid id w Huuid) as Hfound.
  rewrite remove_run.
  destruct (outcome (StudentsService.findOne id w)) as [student | error];
    [| discriminate].
  destruct (Orm.find_student id (durable w)) as [row|] eqn:Hfind; [| discriminate].
  injection Hfound as Hstudent. subst student.
  pose proof (find_student_id _ _ _ Hfind) as Hrow.
  unfold StudentsService.studentRepository_remove, ret. cbn. intros _.
  rewrite (findOne_uuid id _ Huuid). unfold Orm.find_student. cbn.
  rewrite Hrow, find_filtered_out. reflexivity.
Qed.

End Remove.

(** ** seed.service.ts *)

Section SeedFailures.
Context {lib : Externals}.

(** X25.  The seed deletes before it inserts and does not catch what the
    delete throws: when the bulk delete fails, the request fails with
    that error, no insertion is attempted and the tables are as they
    were. *)
Theorem seed_delete_failure :
  forall (req : Http.Request) (w : World) (err : DriverError),
    faults w DeleteAllStudents = Some err ->
    SeedController.get_seed req w
    = {| outcome := Throw (QueryFailedError err); world := w;
         calls := [Failed DeleteAllStudents] |}.
Proof.
  intros req w err Hfault.
  unfold SeedController.get_seed, Router.dispatch, SeedController.route,
    SeedController.executeSeed, SeedService.runSeed, SeedService.insertNewStudents,
    StudentsService.deleteAllStudents.
  cbn [Router.guards Router.run_guards].
  unfold_monad. rewrite Hfault. reflexivity.
Qed.

Lemma create_swallows :
  forall (dto : CreateStudent.CreateStudentDto) (w : World) (err : DriverError),
    faults w SaveStudent = Some err ->
    match code err with
    | Some c => c =? "23505"
    | None => false
    end = false ->
    StudentsService.create dto w
    = {| outcome := Ok None;
         world := set_logged w (logged w ++ [QueryFailedError err]);
         calls := [Failed SaveStudent] |}.
Proof.
  intros dto w err Hfault Hcode.
  unfold StudentsService.create, StudentsService.studentRepository_save,
    StudentsService.handleException.
  unfold_monad. rewrite Hfault. cbn. rewrite Hcode. reflexivity.
Qed.

Lemma settle_each_swallowed :
  forall (err : DriverError) (seeds : list CreateStudent.CreateStudentDto) (w : World),
    faults w SaveStudent = Some err ->
    match code err with
    | Some c => c =? "23505"
    | None => false
    end = false ->
    exists w',
      SeedService.settle_each (map StudentsService.create seeds) w
      = {| outcome := Ok (map (fun _ => Ok None) seeds); world := w';
           calls := map (fun _ => Failed SaveStudent) seeds |} /\
      durable w' = durable w /\
      logged w' = (logged w ++ map (fun _ => QueryFailedError err) seeds)%list.
Proof.
  intros err seeds. induction seeds as [|d seeds IH]; intros w Hfault Hcode.
  - exists w. cbn. rewrite app_nil_r. auto.
  - cbn [map SeedService.settle_each]. unfold bind at 1. unfold SeedService.settle at 1.
    rewrite (create_swallows d w err Hfault Hcode).
    destruct (IH (set_logged w (logged w ++ [QueryFailedError err])) Hfault Hcode)
      as [w' [Hrun [Hdurable Hlogged]]].
    unfold bind at 1. rewrite Hrun. cbn.
    exists w'. rewrite app_nil_r. split; [reflexivity |]. split; [exact Hdurable |].
    rewrite Hlogged. cbn. rewrite <- app_assoc. reflexivity.
Qed.

(** X26.  The seed reports success without having stored anything: when the
    inserts fail with an error other than SQLSTATE 23505, each [create]
    logs its error and returns undefined, so [Promise.all] resolves and
    the answer is "SEED EXECUTED" over an empty student table. *)
Theorem seed_reports_success_without_students :
  forall (w : World) (err : DriverError),
    let r := SeedService.runSeed w in
    faults w DeleteAllStudents = None ->
    faults w SaveStudent = Some err ->
    match code err with
    | Some c => c =? "23505"
    | None => false
    end = false ->
    outcome r = Ok "SEED EXECUTED" /\
    Orm.students (durable (world r)) = [] /\
    logged (world r) = (logged w ++ map (fun _ => QueryFailedError err) initialData)%list /\
    calls r = Done DeleteAllStudents :: map (fun _ => Failed SaveStudent) initialData.
Proof.
  intros w err r Hdelete Hsave Hcode. subst r.
  assert (Hcollect : forall seeds : list CreateStudent.CreateStudentDto,
             SeedService.collect
               (map (fun _ => Ok (@None StudentEntity.Student)) seeds)
             = Ok (map (fun _ => None) seeds)).
  { induction seeds as [|d seeds IH]; cbn; [reflexivity | rewrite IH; reflexivity]. }
  assert (Hrun : exists w',
             SeedService.runSeed w
             = {| outcome := Ok "SEED EXECUTED"; world := w';
                  calls := Done DeleteAllStudents
                           :: map (fun _ => Failed SaveStudent) initialData |} /\
             Orm.students (durable w') = [] /\
             logged w' = (logged w ++ map (fun _ => QueryFailedError err) initialData)%list).
  { unfold SeedService.runSeed, SeedService.insertNewStudents, SeedService.Promise_all,
      StudentsService.deleteAllStudents.
    unfold_monad. rewrite Hdelete. cbv beta iota zeta.
    match goal with
    | |- context [SeedService.settle_each _ ?w1] =>
        destruct (settle_each_swallowed err initialData w1 Hsave Hcode)
          as [w' [Hrun [Hdurable Hlogged]]]
    end.
    rewrite Hrun. cbv beta iota. rewrite Hcollect. cbv beta iota.
    exists w'. rewrite !app_nil_r. split; [reflexivity |].
    split; [rewrite Hdurable; reflexivity | exact Hlogged]. }
  destruct Hrun as [w' [Hrun [Hstudents Hlogged]]].
  rewrite Hrun. cbn. auto.
Qed.

End SeedFailures.

(** ** student.entity.ts: the nickname of a new student *)

Lemma spaces_app : forall a b : string,
    Conditions.spaces (a ++ b) = Conditions.spaces a + Conditions.spaces b.
Proof.
  induction a as [|c a IH]; intros b; cbn; [reflexivity |].
  rewrite IH. apply Nat.add_assoc.
Qed.

Lemma lower_char_space : forall c : ascii,
    (Js.lower_char c =? " ")%char = (c =? " ")%char.
Proof. intros [[] [] [] [] [] [] [] []]; reflexivity. Qed.

Lemma spaces_toLowerCase : forall s : string,
    Conditions.spaces (Js.toLowerCase s) = Conditions.spaces s.
Proof.
  unfold Js.toLowerCase. induction s as [|c s IH]; cbn; [reflexivity |].
  rewrite lower_char_space, IH. reflexivity.
Qed.

Lemma spaces_replace : forall s : string,
    Conditions.spaces (Js.replace " " "_" s) = pred (Conditions.spaces s).
Proof.
  induction s as [|c s IH]; [reflexivity |].
  cbn [Js.replace]. cbn [prefix].
  destruct (ascii_dec " " c) as [Hc | Hc].
  - subst c. rewrite prefix_empty. cbn. rewrite Nat.sub_0_r, substring_all. reflexivity.
  - cbn [Conditions.spaces].
    destruct (c =? " ")%char eqn:Heq.
    + apply Ascii.eqb_eq in Heq. congruence.
    + cbn. exact IH.
Qed.

Lemma spaces_digits : forall d : Decimal.uint,
    Conditions.spaces (NilEmpty.string_of_uint d) = 0.
Proof. induction d; cbn; auto. Qed.

Lemma spaces_string_of_uint : forall d : Decimal.uint,
    Conditions.spaces (NilZero.string_of_uint d) = 0.
Proof. destruct d; cbn; auto using spaces_digits. Qed.

Lemma spaces_to_string : forall age : Js.Optional Z,
    Conditions.spaces (Js.to_string age) = 0.
Proof.
  intros [| | n]; [reflexivity | reflexivity |].
  unfold Js.to_string, Js.string_of_number, NilZero.string_of_int.
  destruct (Z.to_int n); cbn; apply spaces_string_of_uint.
Qed.

(** X27.  The nickname given to a student inserted without one is the name in
    lower case with only its FIRST space turned into an underscore,
    followed by the age: of the spaces of the name, all but one are
    still in the nickname, so a name of three words gives a nickname
    with a space in it. *)
Theorem checkNicknameInsert_replaces_one_space :
  forall student : StudentEntity.Student,
    StudentEntity.nickname student = None ->
    exists nickname,
      StudentEntity.nickname (StudentEntity.checkNicknameInsert student) = Some nickname /\
      Conditions.spaces nickname = pred (Conditions.spaces (StudentEntity.name student)).
Proof.
  intros student Hnone.
  unfold StudentEntity.checkNicknameInsert. rewrite Hnone.
  eexists. split; [reflexivity |].
  rewrite spaces_app, spaces_replace, spaces_toLowerCase, spaces_to_string.
  apply Nat.add_0_r.
Qed.

(** ** The properties above on the sample tables *)

Lemma create_duplicate_email_witness :
  let r := StudentsService.create (lib := Sample.lib)
             {| CreateStudent.name := "Juan P"; CreateStudent.age := Some 30%Z;
                CreateStudent.email := "juan@example.com"; CreateStudent.gender := "Male";
                CreateStudent.subjects := []; CreateStudent.grades := None |}
             (Sample.world_of Sample.db0 Sample.no_faults) in
  outcome r
  = Throw (InternalServerErrorException
             (Some "Key (email)=(juan@example.com) already exists.")) /\
  durable (world r) = Sample.db0 /\
  calls r = [Failed SaveStudent].
Proof.
  intros r.
  exact (@create_duplicate_email Sample.lib
           {| CreateStudent.name := "Juan P"; CreateStudent.age := Some 30%Z;
              CreateStudent.email := "juan@example.com"; CreateStudent.gender := "Male";
              CreateStudent.subjects := []; CreateStudent.grades := None |}
           (Sample.world_of Sample.db0 Sample.no_faults) eq_refl eq_refl eq_refl).
Defined.

Lemma findOne_by_name_or_nickname_witness :
  let w := Sample.world_of Sample.db0 Sample.no_faults in
  (exists row,
      In row (Orm.students Sample.db0) /\
      outcome (StudentsService.findOne (lib := Sample.lib) "JUAN perez" w)
      = Ok (Orm.to_student Sample.db0 row)) /\
  outcome (StudentsService.findOne (lib := Sample.lib) "nobody" w)
  = Throw (NotFoundException "Student with nobody not found").
Proof.
  intros w. split.
  - destruct (proj1 (@findOne_by_name_or_nickname Sample.lib "JUAN perez" w
                       eq_refl eq_refl eq_refl) eq_refl)
      as [row [Hin [_ Hout]]].
    exists row. split; assumption.
  - exact (proj2 (@findOne_by_name_or_nickname Sample.lib "nobody" w
                    eq_refl eq_refl eq_refl) eq_refl).
Defined.


Lemma update_unknown_student_witness :
  let w := Sample.world_of Sample.db0 Sample.no_faults in
  let r := StudentsService.update (lib := Sample.lib) Sample.maria_id (Sample.with_age 30) w in
  outcome r
  = Throw (NotFoundException
             "Student with id 00000000-0000-4000-8000-0000000000b2 not found") /\
  world r = w /\
  calls r = [].
Proof.
  intros w r. subst r.
  rewrite (@update_unknown_student Sample.lib Sample.maria_id (Sample.with_age 30) w
             eq_refl eq_refl).
  repeat split.
Defined.

Lemma update_begin_failure_skips_release_witness :
  let w := Sample.world_of Sample.db0
             (Sample.fail_at StartTransaction Sample.connection_lost) in
  let r := StudentsService.update (lib := Sample.lib) Sample.juan_id (Sample.with_age 21) w in
  outcome r = Throw (QueryFailedError Sample.connection_lost) /\
  calls r = [Done Connect; Failed StartTransaction] /\
  (In (Done Release) (calls r) -> False) /\
  (In (Failed Release) (calls r) -> False) /\
  durable (world r) = Sample.db0 /\
  logged (world r) = [].
Proof.
  intros w r.
  exact (@update_begin_failure_skips_release Sample.lib Sample.juan_id
           (Sample.with_age 21) w
           {| Orm.s_id := Sample.juan_id; Orm.s_name := "Juan Perez";
              Orm.s_age := Some 20%Z; Orm.s_email := "juan@example.com";
              Orm.s_nickname := "juan_perez20"; Orm.s_gender := "Male";
              Orm.s_subjects := ["Math"] |}
           Sample.connection_lost eq_refl eq_refl eq_refl eq_refl).
Defined.

Lemma update_duplicate_email_witness :
  let w := Sample.world_of Sample.db1 Sample.no_faults in
  let r := StudentsService.update (lib := Sample.lib) Sample.juan_id
             {| UpdateStudent.name := None; UpdateStudent.age := None;
                UpdateStudent.email := Some "maria@example.com";
                UpdateStudent.gender := None; UpdateStudent.subjects := None;
                UpdateStudent.grades := Some [Sample.science] |} w in
  outcome r
  = Throw (InternalServerErrorException
             (Some "Key (email)=(maria@example.com) already exists.")) /\
  durable (world r) = Sample.db1 /\
  transaction (world r) = None /\
  connections (world r) = 0 /\
  In (Done RollbackTransaction) (calls r) /\
  In (Done Release) (calls r).
Proof.
  intros w r.
  exact (@update_duplicate_email Sample.lib Sample.juan_id
           {| UpdateStudent.name := None; UpdateStudent.age := None;
              UpdateStudent.email := Some "maria@example.com";
              UpdateStudent.gender := None; UpdateStudent.subjects := None;
              UpdateStudent.grades := Some [Sample.science] |} w
           {| Orm.s_id := Sample.juan_id; Orm.s_name := "Juan Perez";
              Orm.s_age := Some 20%Z; Orm.s_email := "juan@example.com";
              Orm.s_nickname := "juan_perez20"; Orm.s_gender := "Male";
              Orm.s_subjects := ["Math"] |}
           "maria@example.com" (fun _ => eq_refl) eq_refl eq_refl eq_refl eq_refl).
Defined.

Lemma update_stores_the_given_fields_witness :
  let w := Sample.world_of Sample.db1 Sample.no_faults in
  let dto :=
    {| UpdateStudent.name := Some "Juan P. Perez"; UpdateStudent.age := None;
       UpdateStudent.email := None; UpdateStudent.gender := None;
       UpdateStudent.subjects := Some ["Math"; "Art"]; UpdateStudent.grades := None |} in
  let r := StudentsService.update (lib := Sample.lib) Sample.juan_id dto w in
  exists student,
    outcome r = Ok (Some student) /\
    StudentEntity.name student = "Juan P. Perez" /\
    StudentEntity.age student = Js.value 20%Z /\
    StudentEntity.email student = "juan@example.com" /\
    StudentEntity.subjects student = ["Math"; "Art"] /\
    exists maria,
      Orm.find_student Sample.maria_id (durable w) = Some maria /\
      In maria (Orm.students (durable (world r))).
Proof.
  intros w dto r.
  assert (Hok : exists student, outcome r = Ok (Some student))
    by (vm_compute; eexists; reflexivity).
  destruct Hok as [student Hok]. exists student.
  destruct (@update_stores_the_given_fields Sample.lib Sample.juan_id dto w student Hok)
    as [row [Hfind [_ [Hname [Hage [Hemail [_ [Hsubjects [_ Hothers]]]]]]]]].
  vm_compute in Hfind. injection Hfind as Hrow. subst row.
  split; [exact Hok |].
  split; [exact Hname |]. split; [exact Hage |]. split; [exact Hemail |].
  split; [exact Hsubjects |].
  eexists. split; [reflexivity |].
  apply Hothers; [right; left; reflexivity | discriminate].
Defined.

Lemma remove_then_findOne_witness :
  let w := Sample.world_of Sample.db1 Sample.no_faults in
  let r := StudentsService.remove (lib := Sample.lib) Sample.juan_id w in
  outcome (StudentsService.findOne (lib := Sample.lib) Sample.juan_id (world r))
  = Throw (NotFoundException
             "Student with 00000000-0000-4000-8000-0000000000b1 not found").
Proof.
  intros w r.
  exact (@remove_then_findOne Sample.lib Sample.juan_id w eq_refl eq_refl).
Defined.

(** Juan is removed by his name, in another letter case; Maria and her
    grade stay. *)
Lemma remove_deletes_student_and_grades_witness :
  let w := Sample.world_of Sample.db1 Sample.no_faults in
  let r := StudentsService.remove (lib := Sample.lib) "juan PEREZ" w in
  outcome r = Ok tt /\
  map Orm.s_name (Orm.students (durable (world r))) = ["Maria Lopez"] /\
  Orm.grades_of Sample.juan_id (Orm.grades (durable (world r))) = [] /\
  (exists maria,
      Orm.find_student Sample.maria_id Sample.db1 = Some maria /\
      In maria (Orm.students (durable (world r)))).
Proof.
  intros w r.
  pose proof (@remove_deletes_student_and_grades Sample.lib "juan PEREZ" w eq_refl) as H.
  assert (Hfound : exists student,
             outcome (StudentsService.findOne (lib := Sample.lib) "juan PEREZ" w) = Ok student /\
             StudentEntity.id student = Some Sample.juan_id)
    by (vm_compute; eexists; split; reflexivity).
  destruct Hfound as [student [Hfound Hsid]].
  cbv zeta in H. rewrite Hfound in H.
  destruct H as [id [Hid [Hout [_ [Hgrades [Hothers _]]]]]].
  assert (id = Sample.juan_id) by congruence. subst id.
  split; [exact Hout |].
  split; [vm_compute; reflexivity |].
  split; [exact Hgrades |].
  eexists. split; [reflexivity |].
  apply Hothers; [right; left; reflexivity | discriminate].
Defined.

Lemma seed_delete_failure_witness :
  let w := Sample.world_of Sample.db0
             (Sample.fail_at DeleteAllStudents Sample.connection_lost) in
  let r := SeedController.get_seed (lib := Sample.lib)
             {| Http.authorization := None; Http.user := None |} w in
  outcome r = Throw (QueryFailedError Sample.connection_lost) /\
  durable (world r) = Sample.db0 /\
  calls r = [Failed DeleteAllStudents].
Proof.
  intros w r. subst r.
  rewrite (@seed_delete_failure Sample.lib
             {| Http.authorization := None; Http.user := None |} w
             Sample.connection_lost eq_refl).
  repeat split.
Defined.

Lemma seed_reports_success_without_students_witness :
  let w := Sample.world_of Sample.db0 (Sample.fail_at SaveStudent Sample.connection_lost) in
  let r := SeedService.runSeed (lib := Sample.lib) w in
  outcome r = Ok "SEED EXECUTED" /\
  Orm.students (durable (world r)) = [] /\
  logged (world r) = [QueryFailedError Sample.connection_lost;
                      QueryFailedError Sample.connection_lost] /\
  calls r = [Done DeleteAllStudents; Failed SaveStudent; Failed SaveStudent].
Proof.
  intros w r.
  exact (@seed_reports_success_without_students Sample.lib w Sample.connection_lost
           eq_refl eq_refl eq_refl).
Defined.

Lemma checkNicknameInsert_replaces_one_space_witness :
  exists nickname,
    StudentEntity.nickname
      (StudentEntity.checkNicknameInsert
         (StudentsService.studentRepository_create
            {| CreateStudent.name := "Juan Carlos Perez"; CreateStudent.age := Some 20%Z;
               CreateStudent.email := "jc@example.com"; CreateStudent.gender := "Male";
               CreateStudent.subjects := []; CreateStudent.grades := None |} []))
    = Some nickname /\
    Conditions.spaces nickname = 1.
Proof.
  exact (checkNicknameInsert_replaces_one_space
           (StudentsService.studentRepository_create
              {| CreateStudent.name := "Juan Carlos Perez"; CreateStudent.age := Some 20%Z;
                 CreateStudent.email := "jc@example.com"; CreateStudent.gender := "Male";
                 CreateStudent.subjects := []; CreateStudent.grades := None |} [])
           eq_refl).
Defined.

Lemma returned_update_released_witness :
  let w := Sample.world_of Sample.db0 Sample.no_faults in
  let r := StudentsService.update (lib := Sample.lib) Sample.juan_id
             (Sample.with_grades [Sample.science; Sample.art]) w in
  In (Done Release) (calls r) /\
  connections (world r) = 0 /\
  transaction (world r) = None.
Proof.
  intros w r.
  assert (Hok : exists student, outcome r = Ok (Some student))
    by (vm_compute; eexists; reflexivity).
  destruct Hok as [student Hok].
  exact (@returned_update_released Sample.lib Sample.juan_id
           (Sample.with_grades [Sample.science; Sample.art]) w student Hok).
Defined.

Lemma failed_rollback_never_releases_witness :
  let failing : Op -> option DriverError :=
    fun o => match o with
             | CommitTransaction | RollbackTransaction => Some Sample.connection_lost
             | _ => None
             end in
  let w := Sample.world_of Sample.db0 failing in
  let r := StudentsService.update (lib := Sample.lib) Sample.juan_id (Sample.with_age 21) w in
  (In (Done Release) (calls r) -> False) /\
  last (calls r) (Done Connect) = Failed RollbackTransaction.
Proof.
  intros failing w r.
  apply (@failed_rollback_never_releases Sample.lib Sample.juan_id (Sample.with_age 21) w).
  vm_compute. auto 10.
Defined.

(** ** Login followed by the guarded route *)

Section LoginThenRoute.
Context {lib : Externals}.

(** X10.  [login] does not look at [isActive], the guard does.  A login with
    the right password answers with a token; presented as a bearer
    token (one the JWT library verifies back to its payload), it opens
    the guarded route for an active account, with the stored account
    attached, and is refused with "User is not active" for a
    deactivated one, although the login itself succeeded. *)
Theorem login_then_private_route :
  forall (A : Type) (handler : Http.Request -> M A) (loginDto : Login.LoginDto)
         (account : Orm.UserRow) (w : World),
    let payload := {| JwtInterface.id := Orm.u_id account;
                      JwtInterface.email := Orm.u_email account |} in
    let token := sign payload (clock w) in
    let req := {| Http.authorization := Some ("Bearer " ++ token); Http.user := None |} in
    Orm.find_user_by_email (Login.email loginDto) (durable w) = Some account ->
    Orm.find_user_by_id (Orm.u_id account) (durable w) = Some account ->
    compareSync (Login.password loginDto) (Orm.u_password account) = true ->
    verify token (clock w) = Some payload ->
    (exists response,
        AuthService.login loginDto w
        = {| outcome := Ok response; world := w; calls := [] |} /\
        AuthService.token response = token) /\
    Router.dispatch AuthController.private_route handler req w
    = if Orm.u_isActive account
      then handler {| Http.authorization := Some ("Bearer " ++ token);
                      Http.user := Some (UserEntity.delete_password (Orm.to_user account)) |}
                   w
      else {| outcome := Throw (UnauthorizedException "User is not active");
              world := w; calls := [] |}.
Proof.
  intros A handler loginDto account w payload token req Hemail Hid Hpassword Hverify.
  split.
  - unfold AuthService.login, AuthService.userRepository_findOne, AuthService.respond,
      AuthService.getJwtToken.
    unfold_monad. rewrite Hemail. cbn. rewrite Hpassword. cbn.
    eexists. split; reflexivity.
  - destruct (Orm.u_isActive account) eqn:Hactive.
    + unfold Router.dispatch, AuthController.private_route.
      cbn [Router.guards Router.run_guards Router.run_guard].
      unfold bind at 1. unfold bind at 1.
      rewrite (AuthGuard_passes req token payload account w eq_refl Hverify Hid Hactive).
      cbn. rewrite !after_nil. reflexivity.
    + unfold Router.dispatch, AuthController.private_route.
      cbn [Router.guards Router.run_guards Router.run_guard].
      unfold bind at 1. unfold bind at 1.
      unfold JwtStrategy.AuthGuard, Js.toLowerCase. subst req. cbn [Http.authorization].
      simpl. rewrite prefix_empty, Nat.sub_0_r, substring_all, Hverify.
      unfold JwtStrategy.validate, JwtStrategy.userRepository_findOneBy.
      unfold_monad. cbn [JwtInterface.id payload]. subst payload. cbn [JwtInterface.id].
      rewrite Hid. cbn. rewrite Hactive. reflexivity.
Qed.

End LoginThenRoute.

(** Ana logs in and calls the guarded route with the token; the same
    with her account deactivated. *)
Lemma login_then_private_route_witness :
  let inactive :=
    {| Orm.u_id := Orm.u_id Sample.ana; Orm.u_email := Orm.u_email Sample.ana;
       Orm.u_fullName := Orm.u_fullName Sample.ana;
       Orm.u_password := Orm.u_password Sample.ana;
       Orm.u_isActive := false; Orm.u_roles := Orm.u_roles Sample.ana |} in
  let w := Sample.world_of Sample.db0 Sample.no_faults in
  let w' := Sample.world_of
              {| Orm.students := []; Orm.grades := []; Orm.users := [inactive] |}
              Sample.no_faults in
  let req :=
    {| Http.authorization :=
         Some "Bearer jwt.00000000-0000-4000-8000-0000000000a1.ana@example.com.0";
       Http.user := None |} in
  let loginDto := {| Login.email := "ana@example.com"; Login.password := "secret1" |} in
  outcome (Router.dispatch (lib := Sample.lib) AuthController.private_route
             (fun _ => ret "logged in") req w) = Ok "logged in" /\
  (exists response,
      outcome (AuthService.login (lib := Sample.lib) loginDto w') = Ok response /\
      AuthService.token response
      = "jwt.00000000-0000-4000-8000-0000000000a1.ana@example.com.0") /\
  outcome (Router.dispatch (lib := Sample.lib) AuthController.private_route
             (fun _ => ret "logged in") req w')
  = Throw (UnauthorizedException "User is not active").
Proof.
  intros inactive w w' req loginDto.
  pose proof (@login_then_private_route Sample.lib string (fun _ => ret "logged in")
                loginDto Sample.ana w eq_refl eq_refl eq_refl eq_refl) as [_ Hactive].
  pose proof (@login_then_private_route Sample.lib string (fun _ => ret "logged in")
                loginDto inactive w' eq_refl eq_refl eq_refl eq_refl)
    as [[response [Hlogin Htoken]] Hinactive].
  split; [| split].
  - exact (f_equal outcome Hactive).
  - exists response. rewrite Hlogin. split; [reflexivity | exact Htoken].
  - exact (f_equal outcome Hinactive).
Defined.

(** ** students.service.ts: an update and the grades of the others *)

Section OtherGrades.
Context {lib : Externals}.
Import Conditions.




End OtherGrades.

